(** * The LLM router: model selection, provider calls and cost arithmetic

    A shallow embedding of [packages/router] (the [types] interfaces and the
    [LLMRouter] class) together with the properties of its selection,
    execution and accounting paths.

    Conventions of the embedding.
    - A JavaScript [number] is an IEEE binary64 value, held as the rational
      it denotes.  [binary64] rounds a rational to the nearest value with a
      53-bit significand, ties to even; an arithmetic operation of the source
      is the exact operation followed by that rounding ([js_add], [js_sub],
      [js_mul], [js_div]), and a decimal literal of the source is the rounding
      of its decimal value (an integer literal below 2^53 is its own double).  The exponent range is not bounded: overflow,
      subnormals, infinities and NaN are outside the embedding.  Truthiness
      of a number is "different from 0".
    - An optional field ([maxTokens?: number]) is an [option]; a field that the
      interface declares mandatory but that the code tests for truthiness
      ([constraints.maxCost && ...]) is an [option] too, [None] standing for a
      field left unset by the caller.
    - [Map<string, ModelConfig>] is an association list in insertion order,
      which is the iteration order of a JavaScript [Map].
    - An [async] method is a computation over an explicit [World] (clock,
      console, outbound provider calls) that ends in a value or in a thrown
      exception. *)

From Stdlib Require Import List String ZArith QArith Qround Qminmax Qpower Bool Lia Lqa.
Import ListNotations.

Local Open Scope string_scope.
Local Open Scope Q_scope.

(** ** JavaScript values *)

Definition number := Q.

(** The binary exponent of a positive rational: the [e] with
    [2^e <= x < 2^(e+1)]. *)
Definition Qlog2 (x : Q) : Z :=
  let c := (Z.log2 (Qnum x) - Z.log2 (Zpos (Qden x)))%Z in
  if Qle_bool (2 ^ c) x then c else (c - 1)%Z.

(** The nearest integer, the even one of the two at a tie. *)
Definition nearest_even (m : Q) : Z :=
  let f := Qfloor m in
  match Qcompare (m - inject_Z f) (1 # 2) with
  | Lt => f
  | Gt => (f + 1)%Z
  | Eq => if Z.even f then f else (f + 1)%Z
  end.

(** A positive rational rounded to 53 significant bits. *)
Definition round53 (x : Q) : Q :=
  let ulp := 2 ^ (Qlog2 x - 52) in
  inject_Z (nearest_even (x / ulp)) * ulp.

(** Rounding to the nearest binary64 value; also the value of a decimal
    literal of the source. *)
Definition binary64 (x : Q) : number :=
  match Qcompare x 0 with
  | Eq => 0
  | Gt => round53 x
  | Lt => - round53 (- x)
  end.
Arguments binary64 : simpl never.

(** [a + b], [a - b], [a * b] and [a / b] on numbers. *)
Definition js_add (a b : number) : number := binary64 (a + b).
Definition js_sub (a b : number) : number := binary64 (a - b).
Definition js_mul (a b : number) : number := binary64 (a * b).
Definition js_div (a b : number) : number := binary64 (a / b).
Arguments js_add : simpl never.
Arguments js_sub : simpl never.
Arguments js_mul : simpl never.
Arguments js_div : simpl never.

(** [x] in a boolean position: [0] is falsy, every other number is truthy. *)
Definition truthy (x : number) : bool := negb (Qeq_bool x 0).

(** [x || d] for an optional number: an absent or falsy [x] gives [d]. *)
Definition or_default (x : option number) (d : number) : number :=
  match x with
  | Some v => if truthy v then v else d
  | None => d
  end.

(** [s || d] for an optional string: [null] and the empty string are falsy. *)
Definition or_default_string (s : option string) (d : string) : string :=
  match s with
  | Some v => if String.eqb v "" then d else v
  | None => d
  end.

(** [a > b] on numbers. *)
Definition gtb (a b : number) : bool := negb (Qle_bool a b).

(** [x.toFixed(6)], as the number of millionths that the printed decimal
    denotes: the exact value of [x] rounded to the nearest millionth, halves
    upward on the absolute value. *)
Definition toFixed6 (x : number) : Z :=
  if Qle_bool 0 x then Qfloor (x * 1000000 + 0.5)
  else (- Qfloor (- x * 1000000 + 0.5))%Z.

(** [xs.includes(x)] on an array of strings. *)
Definition includes (xs : list string) (x : string) : bool :=
  existsb (String.eqb x) xs.

(** What a [throw] carries: an [Error] built by the router itself, a
    [TypeError] raised by the runtime, or an error object of the provider
    SDK. *)
Inductive exn : Type :=
| Error (message : string)
| TypeError (message : string)
| APIError (status : Z) (message : string).

Inductive Result (A : Type) : Type :=
| Ok (value : A)
| Throw (error : exn).
Arguments Ok {A} value.
Arguments Throw {A} error.

(** ** [Array.prototype.sort]

    The sort is stable, and the comparator [cmp a b] puts [a] after [b]
    exactly when it is positive.  A stable insertion sort is that
    specification run from the right end of the array. *)
Section Sort.
Context {A : Type}.
Variable compareFn : A -> A -> number.

Fixpoint insert_sorted (a : A) (sorted : list A) : list A :=
  match sorted with
  | [] => [a]
  | b :: rest =>
      if gtb (compareFn a b) 0 then b :: insert_sorted a rest
      else a :: sorted
  end.

Definition sort (l : list A) : list A := fold_right insert_sorted [] l.
End Sort.

(** ** [types.ts] *)

Inductive Quality : Type := low | medium | high.

Definition Quality_eqb (a b : Quality) : bool :=
  match a, b with
  | low, low | medium, medium | high, high => true
  | _, _ => false
  end.

Module ModelConfig.
Record t : Type := mk {
  provider : string;
  model : string;
  maxTokens : number;
  costPer1kInput : number;
  costPer1kOutput : number;
  latencyMs : number;
  quality : Quality;
  capabilities : list string
}.
End ModelConfig.

Module RoutingConstraints.
Record t : Type := mk {
  maxCost : option number;
  maxLatency : number;
  requiredQuality : Quality;
  requiredCapabilities : list string;
  task : string;
  locale : string
}.
End RoutingConstraints.

Module Usage.
Record t : Type := mk {
  promptTokens : number;
  completionTokens : number;
  totalTokens : number;
  cost : number
}.
End Usage.

Module ModelResponse.
Record t : Type := mk {
  provider : string;
  model : string;
  content : string;
  usage : Usage.t;
  latency : number;
  metadata : list (string * string)
}.
End ModelResponse.

Inductive Role : Type := system | user | assistant.

Module ChatMessage.
Record t : Type := mk {
  role : Role;
  content : string;
  name : option string
}.
End ChatMessage.

Module ChatRequest.
Record t : Type := mk {
  messages : list ChatMessage.t;
  model : option string;
  maxTokens : option number;
  temperature : option number;
  topP : option number;
  stream : option bool
}.
End ChatRequest.

(** [input: string | string[]] *)
Inductive EmbeddingInput : Type :=
| one_text (text : string)
| many_texts (texts : list string).

Module EmbeddingRequest.
Record t : Type := mk {
  input : EmbeddingInput;
  model : option string
}.
End EmbeddingRequest.

Module EmbeddingItem.
Record t : Type := mk {
  embedding : list number;
  index : number;
  object : string
}.
End EmbeddingItem.

Module EmbeddingUsage.
Record t : Type := mk {
  promptTokens : number;
  totalTokens : number
}.
End EmbeddingUsage.

Module EmbeddingResponse.
Record t : Type := mk {
  data : list EmbeddingItem.t;
  model : string;
  usage : EmbeddingUsage.t
}.
End EmbeddingResponse.

Module CostTracking.
Record t : Type := mk {
  orgId : string;
  provider : string;
  model : string;
  tokensIn : number;
  tokensOut : number;
  cost : number;
  timestamp : Z;
  task : string;
  userId : option string
}.
End CostTracking.

Module CostSummary.
Record t : Type := mk {
  totalCost : number;
  totalTokens : number;
  requests : number;
  breakdown : list (string * number)
}.
End CostSummary.

(** ** The provider SDK (the [openai] package), as far as the router uses it *)

Module ChatParams.
Record t : Type := mk {
  model : string;
  messages : list (Role * string);
  max_tokens : number;
  temperature : number;
  top_p : number;
  stream : bool
}.
End ChatParams.

Module CompletionUsage.
Record t : Type := mk {
  prompt_tokens : number;
  completion_tokens : number;
  total_tokens : number
}.
End CompletionUsage.

Module Choice.
Record t : Type := mk {
  content : option string;
  finish_reason : string
}.
End Choice.

Module ChatCompletion.
Record t : Type := mk {
  choices : list Choice.t;
  usage : option CompletionUsage.t
}.
End ChatCompletion.

Module EmbeddingParams.
Record t : Type := mk {
  model : string;
  input : EmbeddingInput
}.
End EmbeddingParams.

Module CreateEmbeddingUsage.
Record t : Type := mk {
  prompt_tokens : number;
  total_tokens : number
}.
End CreateEmbeddingUsage.

Module CreateEmbeddingResponse.
Record t : Type := mk {
  data : list EmbeddingItem.t;
  usage : CreateEmbeddingUsage.t
}.
End CreateEmbeddingResponse.

(** One answer of the provider: how long it took and how it ended. *)
Module Reply.
Record t (A : Type) : Type := mk {
  elapsedMs : Z;
  outcome : Result A
}.
Arguments mk {A} elapsedMs outcome.
Arguments elapsedMs {A} _.
Arguments outcome {A} _.
End Reply.

(** The client object held in [this.openai]: the remote service is an
    arbitrary function of the parameters it is sent. *)
Module OpenAI.
Record t : Type := mk {
  chat_completions_create : ChatParams.t -> Reply.t ChatCompletion.t;
  embeddings_create : EmbeddingParams.t -> Reply.t CreateEmbeddingResponse.t
}.
End OpenAI.

(** ** The world an [async] method runs in *)

Inductive Outbound : Type :=
| sent_chat (params : ChatParams.t)
| sent_embeddings (params : EmbeddingParams.t).

(** Console lines.  The two cost lines print [cost.toFixed(6)]. *)
Inductive ConsoleLine : Type :=
| log_cost_tracked (orgId : string) (millionths : Z)
| log_embedding_cost_tracked (orgId : string) (millionths : Z)
| log_cost_summary_requested (orgId : string) (month : string)
| error_chat_completion_failed (error : exn)
| error_embedding_generation_failed (error : exn).

Module World.
Record t : Type := mk {
  now : Z;
  console : list ConsoleLine;
  network : list Outbound
}.
End World.

Definition M (A : Type) : Type := World.t -> Result A * World.t.

Definition ret {A} (a : A) : M A := fun w => (Ok a, w).

Definition throw {A} (e : exn) : M A := fun w => (Throw e, w).

Definition bind {A B} (m : M A) (k : A -> M B) : M B :=
  fun w =>
    match m w with
    | (Ok a, w') => k a w'
    | (Throw e, w') => (Throw e, w')
    end.

(** [try { body } catch (error) { handler }] *)
Definition try_catch {A} (body : M A) (handler : exn -> M A) : M A :=
  fun w =>
    match body w with
    | (Ok a, w') => (Ok a, w')
    | (Throw e, w') => handler e w'
    end.

(** [await] of a promise that is already settled. *)
Definition await {A} (r : Result A) : M A := fun w => (r, w).

Declare Scope router_scope.
Delimit Scope router_scope with router.
Notation "x <- m ;; k" := (bind m (fun x => k))
  (at level 61, m at next level, right associativity) : router_scope.
Notation "m ;;; k" := (bind m (fun _ => k))
  (at level 61, right associativity) : router_scope.

Definition Date_now : M Z := fun w => (Ok (World.now w), w).

Definition console_log (line : ConsoleLine) : M unit :=
  fun w => (Ok tt, World.mk (World.now w) (World.console w ++ [line]) (World.network w)).

Definition console_error (line : ConsoleLine) : M unit := console_log line.

(** A provider call: the request leaves, the clock advances by the time the
    provider took, and the promise resolves or rejects. *)
Definition call_provider {A} (request : Outbound) (reply : Reply.t A) : M A :=
  fun w =>
    (Reply.outcome reply,
     World.mk (World.now w + Reply.elapsedMs reply)%Z (World.console w)
              (World.network w ++ [request])).

(** ** [Map<string, ModelConfig>] *)

Definition ModelMap := list (string * ModelConfig.t).

Fixpoint Map_set (m : ModelMap) (key : string) (value : ModelConfig.t) : ModelMap :=
  match m with
  | [] => [(key, value)]
  | (k, v) :: rest =>
      if String.eqb k key then (k, value) :: rest
      else (k, v) :: Map_set rest key value
  end.

Fixpoint Map_get (m : ModelMap) (key : string) : option ModelConfig.t :=
  match m with
  | [] => None
  | (k, v) :: rest => if String.eqb k key then Some v else Map_get rest key
  end.

Definition Map_values (m : ModelMap) : list ModelConfig.t := map snd m.

(** ** [llm-router.ts]: the [LLMRouter] class *)

Module LLMRouter.
Record t : Type := mk {
  openai : OpenAI.t;
  models : ModelMap
}.
End LLMRouter.

Local Open Scope router_scope.

Definition initializeModels : ModelMap :=
  let models : ModelMap := [] in
  (* OpenAI Models *)
  let models := Map_set models "gpt-4o"
    (ModelConfig.mk "openai" "gpt-4o" 128000 (binary64 0.005) (binary64 0.015) 2000 high
       ["reasoning"; "creativity"; "analysis"; "multimodal"]) in
  let models := Map_set models "gpt-4o-mini"
    (ModelConfig.mk "openai" "gpt-4o-mini" 128000 (binary64 0.00015) (binary64 0.0006)
       1000 medium ["reasoning"; "creativity"; "analysis"]) in
  let models := Map_set models "gpt-3.5-turbo"
    (ModelConfig.mk "openai" "gpt-3.5-turbo" 16385 (binary64 0.0005) (binary64 0.0015)
       500 low
       ["basic_reasoning"; "creativity"]) in
  (* Embedding Models *)
  let models := Map_set models "text-embedding-3-small"
    (ModelConfig.mk "openai" "text-embedding-3-small" 8192 (binary64 0.00002) 0 200
       medium ["embeddings"]) in
  models.

(** [new LLMRouter(openaiApiKey)]: the key only configures the client, which
    is the argument here. *)
Definition new_LLMRouter (client : OpenAI.t) : LLMRouter.t :=
  LLMRouter.mk client initializeModels.

(** The callback given to [filter] in [routeRequest]. *)
Definition routeFilter (constraints : RoutingConstraints.t) (model : ModelConfig.t) : bool :=
  (* Filter by quality *)
  if Quality_eqb (RoutingConstraints.requiredQuality constraints) high
     && negb (Quality_eqb (ModelConfig.quality model) high) then false
  else if Quality_eqb (RoutingConstraints.requiredQuality constraints) medium
     && Quality_eqb (ModelConfig.quality model) low then false
  else
    (* Filter by capabilities *)
    let hasCapabilities :=
      forallb (fun cap => includes (ModelConfig.capabilities model) cap)
              (RoutingConstraints.requiredCapabilities constraints) in
    if negb hasCapabilities then false
    else
      (* Filter by budget (using maxCost from constraints) *)
      if match RoutingConstraints.maxCost constraints with
         | Some maxCost =>
             truthy maxCost
             && gtb (js_add (ModelConfig.costPer1kInput model)
                            (ModelConfig.costPer1kOutput model))
                    maxCost
         | None => false
         end
      then false
      else true.

(** The comparator given to [sort] in [routeRequest]. *)
Definition routeCompare (a b : ModelConfig.t) : number :=
  let aCost := js_add (ModelConfig.costPer1kInput a) (ModelConfig.costPer1kOutput a) in
  let bCost := js_add (ModelConfig.costPer1kInput b) (ModelConfig.costPer1kOutput b) in
  js_sub aCost bCost.

Definition routeRequest (this : LLMRouter.t) (constraints : RoutingConstraints.t)
  : Result ModelConfig.t :=
  let availableModels :=
    filter (routeFilter constraints) (Map_values (LLMRouter.models this)) in
  if (List.length availableModels =? 0)%nat then
    Throw (Error "No models available for the given constraints")
  else
    (* Sort by cost efficiency (lower cost first) *)
    let availableModels := sort routeCompare availableModels in
    match availableModels with
    | first :: _ => Ok first
    | [] => Throw (TypeError "availableModels[0] is undefined")
    end.

Definition calculateCost (inputTokens outputTokens : number) (model : ModelConfig.t) : number :=
  let inputCost := js_mul (js_div inputTokens 1000) (ModelConfig.costPer1kInput model) in
  let outputCost := js_mul (js_div outputTokens 1000) (ModelConfig.costPer1kOutput model) in
  js_add inputCost outputCost.

(** The constraints that [chatCompletion] passes to [routeRequest]. *)
Definition chatConstraints : RoutingConstraints.t :=
  {| RoutingConstraints.requiredQuality := medium;
     RoutingConstraints.requiredCapabilities := ["basic_reasoning"];
     RoutingConstraints.maxCost := Some (binary64 0.10); (* $0.10 max cost *)
     RoutingConstraints.maxLatency := 5000; (* 5 seconds max *)
     RoutingConstraints.task := "chat";
     RoutingConstraints.locale := "en" |}.

(** The argument of [this.openai.chat.completions.create] in
    [chatCompletion]. *)
Definition chatParams (selectedModel : ModelConfig.t) (request : ChatRequest.t)
  : ChatParams.t :=
  {| ChatParams.model := ModelConfig.model selectedModel;
     ChatParams.messages :=
       map (fun msg => (ChatMessage.role msg, ChatMessage.content msg))
           (ChatRequest.messages request);
     ChatParams.max_tokens :=
       Qmin (or_default (ChatRequest.maxTokens request) 1000)
            (ModelConfig.maxTokens selectedModel);
     ChatParams.temperature :=
       or_default (ChatRequest.temperature request) (binary64 0.7);
     ChatParams.top_p := or_default (ChatRequest.topP request) 1;
     ChatParams.stream := false (* Disable streaming for now to avoid complexity *) |}.

(** [completion.choices[0]]: reading a property of a missing element throws. *)
Definition first_choice (completion : ChatCompletion.t) : M Choice.t :=
  match ChatCompletion.choices completion with
  | choice :: _ => ret choice
  | [] => throw (TypeError "Cannot read properties of undefined (reading 'message')")
  end.

Definition chatCompletion (this : LLMRouter.t) (request : ChatRequest.t)
    (orgId : string) (userId : option string) : M ModelResponse.t :=
  startTime <- Date_now ;;
  (* Route to appropriate model *)
  selectedModel <- await (routeRequest this chatConstraints) ;;
  try_catch
    (let params := chatParams selectedModel request in
     completion <- call_provider (sent_chat params)
                     (OpenAI.chat_completions_create (LLMRouter.openai this) params) ;;
     endTime <- Date_now ;;
     let latency := inject_Z (endTime - startTime) in
     (* Extract usage and calculate cost *)
     usage <- match ChatCompletion.usage completion with
              | None => throw (Error "No usage data received from OpenAI")
              | Some usage => ret usage
              end ;;
     let cost := calculateCost (CompletionUsage.prompt_tokens usage)
                               (CompletionUsage.completion_tokens usage)
                               selectedModel in
     (* Track cost (simplified - just log for now) *)
     console_log (log_cost_tracked orgId (toFixed6 cost)) ;;;
     choice <- first_choice completion ;;
     ret {| ModelResponse.provider := ModelConfig.provider selectedModel;
            ModelResponse.model := ModelConfig.model selectedModel;
            ModelResponse.content := or_default_string (Choice.content choice) "";
            ModelResponse.usage :=
              {| Usage.promptTokens := CompletionUsage.prompt_tokens usage;
                 Usage.completionTokens := CompletionUsage.completion_tokens usage;
                 Usage.totalTokens := CompletionUsage.total_tokens usage;
                 Usage.cost := cost |};
            ModelResponse.latency := latency;
            ModelResponse.metadata :=
              [("finishReason", Choice.finish_reason choice);
               ("model", ModelConfig.model selectedModel)] |})
    (fun error =>
       (* Log error *)
       console_error (error_chat_completion_failed error) ;;;
       throw error).

Definition generateEmbeddings (this : LLMRouter.t) (request : EmbeddingRequest.t)
    (orgId : string) : M EmbeddingResponse.t :=
  startTime <- Date_now ;;
  embeddingModel <- match Map_get (LLMRouter.models this) "text-embedding-3-small" with
                    | None => throw (Error "Embedding model not available")
                    | Some embeddingModel => ret embeddingModel
                    end ;;
  try_catch
    (let params :=
       {| EmbeddingParams.model := ModelConfig.model embeddingModel;
          EmbeddingParams.input := EmbeddingRequest.input request |} in
     embeddings <- call_provider (sent_embeddings params)
                     (OpenAI.embeddings_create (LLMRouter.openai this) params) ;;
     endTime <- Date_now ;;
     let latency := inject_Z (endTime - startTime) in
     (* Calculate cost *)
     let cost := calculateCost
                   (CreateEmbeddingUsage.prompt_tokens (CreateEmbeddingResponse.usage embeddings))
                   0 (* No output tokens for embeddings *)
                   embeddingModel in
     (* Track cost (simplified - just log for now) *)
     console_log (log_embedding_cost_tracked orgId (toFixed6 cost)) ;;;
     ret {| EmbeddingResponse.data :=
              map (fun item =>
                     {| EmbeddingItem.embedding := EmbeddingItem.embedding item;
                        EmbeddingItem.index := EmbeddingItem.index item;
                        EmbeddingItem.object := EmbeddingItem.object item |})
                  (CreateEmbeddingResponse.data embeddings);
            EmbeddingResponse.model := ModelConfig.model embeddingModel;
            EmbeddingResponse.usage :=
              {| EmbeddingUsage.promptTokens :=
                   CreateEmbeddingUsage.prompt_tokens (CreateEmbeddingResponse.usage embeddings);
                 EmbeddingUsage.totalTokens :=
                   CreateEmbeddingUsage.total_tokens (CreateEmbeddingResponse.usage embeddings) |} |})
    (fun error =>
       console_error (error_embedding_generation_failed error) ;;;
       throw error).

Definition getCostSummary (this : LLMRouter.t) (orgId : string) (month : option string)
  : M CostSummary.t :=
  (* Simplified cost summary - return placeholder data *)
  console_log (log_cost_summary_requested orgId
                 (or_default_string month "current")) ;;;
  ret {| CostSummary.totalCost := 0;
         CostSummary.totalTokens := 0;
         CostSummary.requests := 0;
         CostSummary.breakdown := [] |}.

Definition close (this : LLMRouter.t) : M unit :=
  (* No cleanup needed for simplified version *)
  ret tt.

(** * Properties *)

Local Open Scope list_scope.

(** ** Vocabulary of the selection claims *)

(** The combined per-1000-token rate of a model, as the source adds it. *)
Definition combinedRate (m : ModelConfig.t) : number :=
  js_add (ModelConfig.costPer1kInput m) (ModelConfig.costPer1kOutput m).

(** The ordering low < medium < high. *)
Definition Quality_rank (q : Quality) : nat :=
  match q with low => 0 | medium => 1 | high => 2 end.

(** Quality filter: the model's tier is at least the required one. *)
Definition qualityFilter (c : RoutingConstraints.t) (m : ModelConfig.t) : Prop :=
  (Quality_rank (RoutingConstraints.requiredQuality c)
   <= Quality_rank (ModelConfig.quality m))%nat.

(** Capability filter: every required capability is one of the model's. *)
Definition capabilityFilter (c : RoutingConstraints.t) (m : ModelConfig.t) : Prop :=
  forall cap, In cap (RoutingConstraints.requiredCapabilities c) ->
              In cap (ModelConfig.capabilities m).


(** Cost filter: the combined rate is within [maxCost], and the filter is
    skipped when [maxCost] is unset or zero. *)
Definition costFilter (c : RoutingConstraints.t) (m : ModelConfig.t) : Prop :=
  match RoutingConstraints.maxCost c with
  | Some maxCost => ~ maxCost == 0 -> combinedRate m <= maxCost
  | None => True
  end.

Definition feasible (c : RoutingConstraints.t) (m : ModelConfig.t) : Prop :=
  qualityFilter c m /\ capabilityFilter c m /\ costFilter c m.

Definition noUsageData : exn := Error "No usage data received from OpenAI".

(** The catalog of a router, in insertion order. *)
Definition catalog (this : LLMRouter.t) : list ModelConfig.t :=
  Map_values (LLMRouter.models this).


Definition noModelsAvailable : exn :=
  Error "No models available for the given constraints".

(** ** Vocabulary of the execution and accounting claims *)

(** The two entry points that reach the provider, as one family. *)
Inductive Operation : Type :=
| chat_operation (request : ChatRequest.t) (userId : option string)
| embeddings_operation (request : EmbeddingRequest.t).

Inductive Envelope : Type :=
| chat_envelope (response : ModelResponse.t)
| embeddings_envelope (response : EmbeddingResponse.t).

Definition invoke (this : LLMRouter.t) (orgId : string) (op : Operation) : M Envelope :=
  match op with
  | chat_operation request userId =>
      (response <- chatCompletion this request orgId userId ;;
       ret (chat_envelope response))%router
  | embeddings_operation request =>
      (response <- generateEmbeddings this request orgId ;;
       ret (embeddings_envelope response))%router
  end.

(** The provider call that an operation makes, once a model is chosen, and
    how the provider answers it. *)
Definition providerCall (this : LLMRouter.t) (op : Operation)
  : option (Outbound * Result unit) :=
  match op with
  | chat_operation request _ =>
      match routeRequest this chatConstraints with
      | Ok selectedModel =>
          let params := chatParams selectedModel request in
          Some (sent_chat params,
                match Reply.outcome
                        (OpenAI.chat_completions_create (LLMRouter.openai this) params) with
                | Ok _ => Ok tt
                | Throw e => Throw e
                end)
      | Throw _ => None
      end
  | embeddings_operation request =>
      match Map_get (LLMRouter.models this) "text-embedding-3-small" with
      | Some embeddingModel =>
          let params :=
            {| EmbeddingParams.model := ModelConfig.model embeddingModel;
               EmbeddingParams.input := EmbeddingRequest.input request |} in
          Some (sent_embeddings params,
                match Reply.outcome
                        (OpenAI.embeddings_create (LLMRouter.openai this) params) with
                | Ok _ => Ok tt
                | Throw e => Throw e
                end)
      | None => None
      end
  end.

(** The console line written by the [catch] block of an operation. *)
Definition failureLine (op : Operation) (e : exn) : ConsoleLine :=
  match op with
  | chat_operation _ _ => error_chat_completion_failed e
  | embeddings_operation _ => error_embedding_generation_failed e
  end.

(** The lines that track a cost: the only usage record the router keeps. *)
Definition isCostLine (line : ConsoleLine) : bool :=
  match line with
  | log_cost_tracked _ _ | log_embedding_cost_tracked _ _ => true
  | _ => false
  end.

Definition costLines (w : World.t) : list ConsoleLine :=
  filter isCostLine (World.console w).

(** The console line that tracks the cost of an operation. *)
Definition costLine (op : Operation) (orgId : string) (cost : number) : ConsoleLine :=
  match op with
  | chat_operation _ _ => log_cost_tracked orgId (toFixed6 cost)
  | embeddings_operation _ => log_embedding_cost_tracked orgId (toFixed6 cost)
  end.

(** The model that an operation runs on and the input and output token
    counts that the provider reports for it (no output for embeddings). *)
Definition metered (this : LLMRouter.t) (op : Operation)
  : option (ModelConfig.t * number * number) :=
  match op with
  | chat_operation request _ =>
      match routeRequest this chatConstraints with
      | Ok selectedModel =>
          match Reply.outcome
                  (OpenAI.chat_completions_create (LLMRouter.openai this)
                     (chatParams selectedModel request)) with
          | Ok completion =>
              match ChatCompletion.usage completion with
              | Some usage =>
                  Some (selectedModel, CompletionUsage.prompt_tokens usage,
                        CompletionUsage.completion_tokens usage)
              | None => None
              end
          | Throw _ => None
          end
      | Throw _ => None
      end
  | embeddings_operation request =>
      match Map_get (LLMRouter.models this) "text-embedding-3-small" with
      | Some embeddingModel =>
          match Reply.outcome
                  (OpenAI.embeddings_create (LLMRouter.openai this)
                     (EmbeddingParams.mk (ModelConfig.model embeddingModel)
                        (EmbeddingRequest.input request))) with
          | Ok reply =>
              Some (embeddingModel,
                    CreateEmbeddingUsage.prompt_tokens (CreateEmbeddingResponse.usage reply),
                    0)
          | Throw _ => None
          end
      | None => None
      end
  end.

(** The cost formula in exact arithmetic, with nothing rounded. *)
Definition exactCost (inputTokens outputTokens : Q) (model : ModelConfig.t) : Q :=
  (inputTokens / 1000) * ModelConfig.costPer1kInput model
  + (outputTokens / 1000) * ModelConfig.costPer1kOutput model.

(** The texts of an embedding request: a single string counts as one. *)
Definition inputTexts (input : EmbeddingInput) : list string :=
  match input with
  | one_text text => [text]
  | many_texts texts => texts
  end.

(** The outbound contract of the embeddings endpoint: one item per input
    text. *)
Definition oneItemPerInput (client : OpenAI.t) : Prop :=
  forall params reply,
    Reply.outcome (OpenAI.embeddings_create client params) = Ok reply ->
    List.length (CreateEmbeddingResponse.data reply)
    = List.length (inputTexts (EmbeddingParams.input params)).

(** A generation parameter that is omitted or zero, and one that is supplied
    and not zero. *)
Definition omittedOrZero (x : option number) : Prop :=
  match x with
  | Some v => v == 0
  | None => True
  end.

Definition suppliedNonzero (x : option number) (v : number) : Prop :=
  x = Some v /\ ~ v == 0.

(** A run of operations for one organization, one after the other. *)
Fixpoint serve (this : LLMRouter.t) (orgId : string) (ops : list Operation)
    (w : World.t) : list (Result Envelope) * World.t :=
  match ops with
  | [] => ([], w)
  | op :: rest =>
      let (result, w1) := invoke this orgId op w in
      let (results, w2) := serve this orgId rest w1 in
      (result :: results, w2)
  end.

Fixpoint succeeded (results : list (Result Envelope)) : list Envelope :=
  match results with
  | [] => []
  | Ok envelope :: rest => envelope :: succeeded rest
  | Throw _ :: rest => succeeded rest
  end.

(** The cost and the token count of a call that succeeded. *)
Definition computedCost (this : LLMRouter.t) (envelope : Envelope) : number :=
  match envelope with
  | chat_envelope response => Usage.cost (ModelResponse.usage response)
  | embeddings_envelope response =>
      match Map_get (LLMRouter.models this) "text-embedding-3-small" with
      | Some embeddingModel =>
          calculateCost (EmbeddingUsage.promptTokens (EmbeddingResponse.usage response))
                        0 embeddingModel
      | None => 0
      end
  end.

Definition tokenCount (envelope : Envelope) : number :=
  match envelope with
  | chat_envelope response => Usage.totalTokens (ModelResponse.usage response)
  | embeddings_envelope response =>
      EmbeddingUsage.totalTokens (EmbeddingResponse.usage response)
  end.

Definition total (xs : list number) : number := fold_right Qplus 0 xs.

(** The summary as the fold over the recorded calls of one organization:
    sum of costs, sum of tokens, number of calls. *)
Definition summaryIsFold (summary : CostSummary.t) (this : LLMRouter.t)
    (recorded : list Envelope) : Prop :=
  CostSummary.totalCost summary == total (map (computedCost this) recorded) /\
  CostSummary.totalTokens summary == total (map tokenCount recorded) /\
  CostSummary.requests summary == inject_Z (Z.of_nat (List.length recorded)).

(** The summary after a run of operations for [orgId] is the fold over the
    calls of the run that succeeded. *)
Definition summaryFoldsRun (this : LLMRouter.t) (orgId : string)
    (ops : list Operation) (w : World.t) : Prop :=
  let (results, w1) := serve this orgId ops w in
  exists summary w2,
    getCostSummary this orgId None w1 = (Ok summary, w2) /\
    summaryIsFold summary this (succeeded results).

Definition placeholderSummary : CostSummary.t :=
  {| CostSummary.totalCost := 0;
     CostSummary.totalTokens := 0;
     CostSummary.requests := 0;
     CostSummary.breakdown := [] |}.

(** ** Sample clients, routers and requests *)

Definition emptyWorld : World.t := World.mk 0 [] [].

(** One vector per text, numbered from [index] on. *)
Fixpoint embedTexts (index : nat) (texts : list string) : list EmbeddingItem.t :=
  match texts with
  | [] => []
  | text :: rest =>
      EmbeddingItem.mk [0.25; inject_Z (Z.of_nat (String.length text))]
                       (inject_Z (Z.of_nat index)) "embedding"
      :: embedTexts (S index) rest
  end.

(** A provider that answers every call: 100 prompt and 50 completion tokens
    for a chat, 1000 prompt tokens and one vector per text for embeddings. *)
Definition answeringClient : OpenAI.t :=
  {| OpenAI.chat_completions_create := fun _ =>
       Reply.mk 120%Z
         (Ok {| ChatCompletion.choices := [Choice.mk (Some "hello") "stop"];
                ChatCompletion.usage := Some (CompletionUsage.mk 100 50 150) |});
     OpenAI.embeddings_create := fun params =>
       Reply.mk 30%Z
         (Ok {| CreateEmbeddingResponse.data :=
                  embedTexts 0 (inputTexts (EmbeddingParams.input params));
                CreateEmbeddingResponse.usage := CreateEmbeddingUsage.mk 1000 1000 |}) |}.

(** A provider that rejects every call. *)
Definition failingClient : OpenAI.t :=
  {| OpenAI.chat_completions_create := fun _ =>
       Reply.mk 15%Z (Throw (APIError 503 "Service Unavailable"));
     OpenAI.embeddings_create := fun _ =>
       Reply.mk 15%Z (Throw (APIError 503 "Service Unavailable")) |}.

(** A provider whose chat completions carry no usage block. *)
Definition usagelessClient : OpenAI.t :=
  {| OpenAI.chat_completions_create := fun _ =>
       Reply.mk 120%Z
         (Ok {| ChatCompletion.choices := [Choice.mk (Some "hello") "stop"];
                ChatCompletion.usage := None |});
     OpenAI.embeddings_create := fun _ =>
       Reply.mk 15%Z (Throw (APIError 503 "Service Unavailable")) |}.

(** A router whose catalog lets the chat constraints succeed: the shipped
    entries, with [gpt-4o-mini] also tagged [basic_reasoning]. *)
Definition gpt4oMiniTagged : ModelConfig.t :=
  ModelConfig.mk "openai" "gpt-4o-mini" 128000 (binary64 0.00015) (binary64 0.0006)
    1000 medium
    ["reasoning"; "basic_reasoning"; "creativity"; "analysis"].

Definition taggedRouter (client : OpenAI.t) : LLMRouter.t :=
  LLMRouter.mk client (Map_set initializeModels "gpt-4o-mini" gpt4oMiniTagged).

Definition gpt4o : ModelConfig.t :=
  ModelConfig.mk "openai" "gpt-4o" 128000 (binary64 0.005) (binary64 0.015) 2000 high
    ["reasoning"; "creativity"; "analysis"; "multimodal"].

Definition gpt4oMini : ModelConfig.t :=
  ModelConfig.mk "openai" "gpt-4o-mini" 128000 (binary64 0.00015) (binary64 0.0006)
    1000 medium ["reasoning"; "creativity"; "analysis"].

Definition embeddingSmall : ModelConfig.t :=
  ModelConfig.mk "openai" "text-embedding-3-small" 8192 (binary64 0.00002) 0 200 medium
    ["embeddings"].

(** A catalog of two models with the same combined rate, the slower one
    inserted first. *)
Definition slowModel : ModelConfig.t :=
  ModelConfig.mk "openai" "slow" 4096 (binary64 0.001) (binary64 0.002) 900 medium
    ["reasoning"].

Definition fastModel : ModelConfig.t :=
  ModelConfig.mk "openai" "fast" 4096 (binary64 0.002) (binary64 0.001) 100 medium
    ["reasoning"].

Definition tiedRouter : LLMRouter.t :=
  LLMRouter.mk failingClient [("slow", slowModel); ("fast", fastModel)].

(** A provider whose embeddings answer carries usage but no vector. *)
Definition vectorlessClient : OpenAI.t :=
  {| OpenAI.chat_completions_create := fun _ =>
       Reply.mk 15%Z (Throw (APIError 503 "Service Unavailable"));
     OpenAI.embeddings_create := fun _ =>
       Reply.mk 30%Z
         (Ok {| CreateEmbeddingResponse.data := [];
                CreateEmbeddingResponse.usage := CreateEmbeddingUsage.mk 1000 1000 |}) |}.

(** A provider that reports 175 prompt tokens for an embeddings call. *)
Definition shortTextClient : OpenAI.t :=
  {| OpenAI.chat_completions_create := fun _ =>
       Reply.mk 15%Z (Throw (APIError 503 "Service Unavailable"));
     OpenAI.embeddings_create := fun params =>
       Reply.mk 30%Z
         (Ok {| CreateEmbeddingResponse.data :=
                  embedTexts 0 (inputTexts (EmbeddingParams.input params));
                CreateEmbeddingResponse.usage := CreateEmbeddingUsage.mk 175 175 |}) |}.

Definition oneText : EmbeddingRequest.t :=
  {| EmbeddingRequest.input := one_text "hello";
     EmbeddingRequest.model := None |}.

Definition helloRequest : ChatRequest.t :=
  {| ChatRequest.messages := [ChatMessage.mk user "hello" None];
     ChatRequest.model := None;
     ChatRequest.maxTokens := None;
     ChatRequest.temperature := Some 0;
     ChatRequest.topP := Some (binary64 0.9);
     ChatRequest.stream := None |}.

(** What [answeringClient] makes of [helloRequest] on [taggedRouter]. *)
Definition helloResponse : ModelResponse.t :=
  {| ModelResponse.provider := "openai";
     ModelResponse.model := "gpt-4o-mini";
     ModelResponse.content := "hello";
     ModelResponse.usage :=
       {| Usage.promptTokens := 100;
          Usage.completionTokens := 50;
          Usage.totalTokens := 150;
          Usage.cost := calculateCost 100 50 gpt4oMiniTagged |};
     ModelResponse.latency := 120;
     ModelResponse.metadata := [("finishReason", "stop"); ("model", "gpt-4o-mini")] |}.

Definition helloWorldAfter : World.t :=
  {| World.now := 120;
     World.console := [log_cost_tracked "acme" 45];
     World.network := [sent_chat (chatParams gpt4oMiniTagged helloRequest)] |}.

Definition twoTexts : EmbeddingRequest.t :=
  {| EmbeddingRequest.input := many_texts ["first"; "second"];
     EmbeddingRequest.model := None |}.

(** What [answeringClient] makes of [twoTexts] on the shipped router. *)
Definition twoVectors : EmbeddingResponse.t :=
  {| EmbeddingResponse.data :=
       [EmbeddingItem.mk [0.25; 5] 0 "embedding";
        EmbeddingItem.mk [0.25; 6] 1 "embedding"];
     EmbeddingResponse.model := "text-embedding-3-small";
     EmbeddingResponse.usage := EmbeddingUsage.mk 1000 1000 |}.

Definition twoTextsWorldAfter : World.t :=
  {| World.now := 30;
     World.console := [log_embedding_cost_tracked "acme" 20];
     World.network :=
       [sent_embeddings
          (EmbeddingParams.mk "text-embedding-3-small" (many_texts ["first"; "second"]))] |}.

(** The defaults that the specification gives for a chat call. *)
Definition specifiedChatConstraints : RoutingConstraints.t :=
  {| RoutingConstraints.requiredQuality := medium;
     RoutingConstraints.requiredCapabilities := ["reasoning"];
     RoutingConstraints.maxCost := Some (binary64 0.10);
     RoutingConstraints.maxLatency := 5000;
     RoutingConstraints.task := "chat";
     RoutingConstraints.locale := "en" |}.

(** ** Rounding to binary64 *)

Lemma two_pos (e : Z) : 0 < 2 ^ e.
Proof. apply Qpower_0_lt. reflexivity. Qed.

Lemma two_succ (e : Z) : 2 ^ (e + 1) == 2 * 2 ^ e.
Proof.
  rewrite Qpower_plus by discriminate. rewrite Qmult_comm. reflexivity.
Qed.

Lemma two_le (e1 e2 : Z) : (e1 <= e2)%Z -> 2 ^ e1 <= 2 ^ e2.
Proof. intros H. apply Qpower_le_compat_l; [ assumption | discriminate ]. Qed.

Lemma two_lt_inv (e1 e2 : Z) : 2 ^ e1 < 2 ^ e2 -> (e1 < e2)%Z.
Proof. intros H. eapply Qpower_lt_compat_l_inv; [ eassumption | reflexivity ]. Qed.

Lemma two_inject (k : Z) : (0 <= k)%Z -> 2 ^ k == inject_Z (2 ^ k).
Proof. intros H. symmetry. apply (Zpower_Qpower 2 k H). Qed.

(** [Qlog2 x] is the binary exponent of a positive [x]. *)
Lemma Qlog2_spec (x : Q) : 0 < x -> 2 ^ Qlog2 x <= x /\ x < 2 ^ (Qlog2 x + 1).
Proof.
  intros Hx. unfold Qlog2.
  destruct x as [ n d ]. cbn [Qnum Qden].
  assert (Hn : (0 < n)%Z).
  { unfold Qlt in Hx. cbn in Hx. lia. }
  set (a := Z.log2 n). set (b := Z.log2 (Zpos d)).
  assert (Ha0 : (0 <= a)%Z) by apply Z.log2_nonneg.
  assert (Hb0 : (0 <= b)%Z) by apply Z.log2_nonneg.
  destruct (Z.log2_spec n Hn) as [ Ha1 Ha2 ]. fold a in Ha1, Ha2.
  destruct (Z.log2_spec (Zpos d) ltac:(lia)) as [ Hb1 Hb2 ]. fold b in Hb1, Hb2.
  assert (Hxd : (n # d) * inject_Z (Zpos d) == inject_Z n).
  { unfold Qeq, Qmult, inject_Z. cbn. lia. }
  assert (Hupper : (n # d) < 2 ^ (a - b + 1)).
  { apply Qmult_lt_r with (z := 2 ^ b); [ apply two_pos | ].
    rewrite <- Qpower_plus by discriminate.
    replace (a - b + 1 + b)%Z with (Z.succ a) by lia.
    rewrite (two_inject b Hb0), (two_inject (Z.succ a)) by lia.
    apply Qle_lt_trans with (y := (n # d) * inject_Z (Zpos d)).
    - apply Qmult_le_l; [ assumption | ]. rewrite <- Zle_Qle. assumption.
    - rewrite Hxd. rewrite <- Zlt_Qlt. assumption. }
  assert (Hlower : 2 ^ (a - b - 1) < (n # d)).
  { apply Qmult_lt_r with (z := 2 ^ (b + 1)); [ apply two_pos | ].
    rewrite <- Qpower_plus by discriminate.
    replace (a - b - 1 + (b + 1))%Z with a by lia.
    rewrite (two_inject a Ha0), (two_inject (b + 1)) by lia.
    apply Qle_lt_trans with (y := (n # d) * inject_Z (Zpos d)).
    - rewrite Hxd. rewrite <- Zle_Qle. assumption.
    - apply Qmult_lt_l; [ assumption | ]. rewrite <- Zlt_Qlt.
      replace (b + 1)%Z with (Z.succ b) by lia. assumption. }
  destruct (Qle_bool (2 ^ (a - b)) (n # d)) eqn:E.
  - apply Qle_bool_iff in E. split; assumption.
  - split; [ now apply Qlt_le_weak | ].
    replace (a - b - 1 + 1)%Z with (a - b)%Z by lia.
    apply Qnot_le_lt. intros H. apply Qle_bool_iff in H. congruence.
Qed.

Lemma Qlog2_unique (x : Q) (e : Z) :
  2 ^ e <= x -> x < 2 ^ (e + 1) -> Qlog2 x = e.
Proof.
  intros H1 H2.
  assert (Hx : 0 < x) by (eapply Qlt_le_trans; [ apply two_pos | eassumption ]).
  destruct (Qlog2_spec x Hx) as [ H3 H4 ].
  assert (Qlog2 x < e + 1)%Z.
  { apply two_lt_inv. eapply Qle_lt_trans; eassumption. }
  assert (e < Qlog2 x + 1)%Z.
  { apply two_lt_inv. eapply Qle_lt_trans; eassumption. }
  lia.
Qed.

Lemma Qlog2_le (x y : Q) : 0 < x -> x <= y -> (Qlog2 x <= Qlog2 y)%Z.
Proof.
  intros Hx Hxy.
  assert (Hy : 0 < y) by (eapply Qlt_le_trans; eassumption).
  destruct (Qlog2_spec x Hx) as [ H1 _ ]. destruct (Qlog2_spec y Hy) as [ _ H2 ].
  assert (Qlog2 x < Qlog2 y + 1)%Z; [ | lia ].
  apply two_lt_inv. eapply Qle_lt_trans; [ eassumption | ].
  eapply Qle_lt_trans; eassumption.
Qed.

Lemma nearest_even_bounds (m : Q) :
  (Qfloor m <= nearest_even m <= Qfloor m + 1)%Z.
Proof.
  unfold nearest_even. destruct (Qcompare _ _); [ destruct (Z.even _) | | ]; lia.
Qed.

Lemma nearest_even_Z (k : Z) : nearest_even (inject_Z k) = k.
Proof.
  unfold nearest_even. rewrite Qfloor_Z.
  assert (E : inject_Z k - inject_Z k == 0) by ring.
  destruct (Qcompare_spec (inject_Z k - inject_Z k) (1 # 2)) as [ H | H | H ];
    rewrite E in H; try discriminate; reflexivity.
Qed.

Lemma nearest_even_ge (m : Q) (k : Z) : inject_Z k <= m -> (k <= nearest_even m)%Z.
Proof.
  intros H. apply Qfloor_resp_le in H. rewrite Qfloor_Z in H.
  pose proof (nearest_even_bounds m). lia.
Qed.

Lemma nearest_even_le (m : Q) (k : Z) : m <= inject_Z k -> (nearest_even m <= k)%Z.
Proof.
  intros H. pose proof (nearest_even_bounds m) as [ _ Hb ].
  destruct (Z.le_gt_cases (Qfloor m + 1) k) as [ Hle | Hgt ]; [ lia | ].
  assert (Hk : (k <= Qfloor m)%Z) by lia.
  assert (Hm : m == inject_Z k).
  { apply Qle_antisym; [ assumption | ].
    apply Qle_trans with (y := inject_Z (Qfloor m)); [ | apply Qfloor_le ].
    rewrite <- Zle_Qle. assumption. }
  rewrite (Qfloor_comp _ _ Hm) in *.
  unfold nearest_even. rewrite (Qfloor_comp _ _ Hm), Qfloor_Z.
  assert (E : m - inject_Z k == 0) by (rewrite Hm; ring).
  destruct (Qcompare_spec (m - inject_Z k) (1 # 2)) as [ H' | H' | H' ];
    rewrite E in H'; try discriminate; lia.
Qed.

Lemma nearest_even_mono (m1 m2 : Q) :
  m1 <= m2 -> (nearest_even m1 <= nearest_even m2)%Z.
Proof.
  intros H. pose proof (Qfloor_resp_le _ _ H) as Hf.
  pose proof (nearest_even_bounds m1). pose proof (nearest_even_bounds m2).
  destruct (Z.eq_dec (Qfloor m1) (Qfloor m2)) as [ E | E ]; [ | lia ].
  unfold nearest_even. rewrite E.
  destruct (Qcompare_spec (m1 - inject_Z (Qfloor m2)) (1 # 2)) as [ K1 | K1 | K1 ];
    destruct (Qcompare_spec (m2 - inject_Z (Qfloor m2)) (1 # 2)) as [ K2 | K2 | K2 ];
    try destruct (Z.even (Qfloor m2)); try lia; exfalso; lra.
Qed.

Lemma nearest_even_comp (m1 m2 : Q) : m1 == m2 -> nearest_even m1 = nearest_even m2.
Proof.
  intros H. apply Z.le_antisymm; apply nearest_even_mono; rewrite H; apply Qle_refl.
Qed.

Lemma scaled_bounds (x : Q) :
  0 < x ->
  inject_Z (2 ^ 52) <= x / 2 ^ (Qlog2 x - 52) /\
  x / 2 ^ (Qlog2 x - 52) <= inject_Z (2 ^ 53).
Proof.
  intros Hx. destruct (Qlog2_spec x Hx) as [ H1 H2 ].
  pose proof (two_pos (Qlog2 x - 52)) as Hu.
  rewrite <- !two_inject by lia.
  split.
  - apply Qle_shift_div_l; [ assumption | ].
    rewrite <- Qpower_plus by discriminate.
    replace (52 + (Qlog2 x - 52))%Z with (Qlog2 x) by lia. assumption.
  - apply Qle_shift_div_r; [ assumption | ].
    rewrite <- Qpower_plus by discriminate.
    replace (53 + (Qlog2 x - 52))%Z with (Qlog2 x + 1)%Z by lia.
    now apply Qlt_le_weak.
Qed.

(** A rounded positive number stays within its binade. *)
Lemma round53_bounds (x : Q) :
  0 < x -> 2 ^ Qlog2 x <= round53 x /\ round53 x <= 2 ^ (Qlog2 x + 1).
Proof.
  intros Hx. destruct (scaled_bounds x Hx) as [ H1 H2 ].
  pose proof (two_pos (Qlog2 x - 52)) as Hu.
  apply nearest_even_ge in H1. apply nearest_even_le in H2.
  unfold round53. cbv zeta. split.
  - apply Qle_trans with (y := inject_Z (2 ^ 52) * 2 ^ (Qlog2 x - 52)).
    + rewrite <- two_inject by lia. rewrite <- Qpower_plus by discriminate.
      replace (52 + (Qlog2 x - 52))%Z with (Qlog2 x) by lia. apply Qle_refl.
    + apply Qmult_le_compat_r; [ | now apply Qlt_le_weak ].
      rewrite <- Zle_Qle. assumption.
  - apply Qle_trans with (y := inject_Z (2 ^ 53) * 2 ^ (Qlog2 x - 52)).
    + apply Qmult_le_compat_r; [ | now apply Qlt_le_weak ].
      rewrite <- Zle_Qle. assumption.
    + rewrite <- two_inject by lia. rewrite <- Qpower_plus by discriminate.
      replace (53 + (Qlog2 x - 52))%Z with (Qlog2 x + 1)%Z by lia. apply Qle_refl.
Qed.

Lemma round53_pos (x : Q) : 0 < x -> 0 < round53 x.
Proof.
  intros Hx. eapply Qlt_le_trans; [ apply (two_pos (Qlog2 x)) | ].
  now apply round53_bounds.
Qed.

Lemma round53_mono (x y : Q) : 0 < x -> x <= y -> round53 x <= round53 y.
Proof.
  intros Hx Hxy.
  assert (Hy : 0 < y) by (eapply Qlt_le_trans; eassumption).
  pose proof (Qlog2_le x y Hx Hxy) as He.
  destruct (Z.eq_dec (Qlog2 x) (Qlog2 y)) as [ E | E ].
  - unfold round53. cbv zeta. rewrite E.
    pose proof (two_pos (Qlog2 y - 52)) as Hu.
    apply Qmult_le_compat_r; [ | now apply Qlt_le_weak ].
    rewrite <- Zle_Qle. apply nearest_even_mono.
    unfold Qdiv. apply Qmult_le_compat_r; [ assumption | ].
    apply Qlt_le_weak. now apply Qinv_lt_0_compat.
  - apply Qle_trans with (y := 2 ^ (Qlog2 x + 1)); [ now apply round53_bounds | ].
    apply Qle_trans with (y := 2 ^ Qlog2 y); [ | now apply round53_bounds ].
    apply two_le. lia.
Qed.

Lemma round53_comp (x y : Q) : 0 < x -> x == y -> round53 x == round53 y.
Proof.
  intros Hx E. assert (Hy : 0 < y) by now rewrite <- E.
  apply Qle_antisym; apply round53_mono; try assumption; rewrite E; apply Qle_refl.
Qed.

Lemma round53_idem (x : Q) : 0 < x -> round53 (round53 x) == round53 x.
Proof.
  intros Hx.
  destruct (round53_bounds x Hx) as [ Hlo Hhi ].
  destruct (scaled_bounds x Hx) as [ H1 H2 ].
  apply nearest_even_ge in H1. apply nearest_even_le in H2.
  set (k := nearest_even (x / 2 ^ (Qlog2 x - 52))) in *.
  assert (Hy : round53 x == inject_Z k * 2 ^ (Qlog2 x - 52)) by reflexivity.
  pose proof (two_pos (Qlog2 x - 52)) as Hu.
  destruct (Z.eq_dec k (2 ^ 53)) as [ E | E ].
  - assert (Hy' : round53 x == 2 ^ (Qlog2 x + 1)).
    { rewrite Hy, E. rewrite <- two_inject by lia.
      rewrite <- Qpower_plus by discriminate.
      replace (53 + (Qlog2 x - 52))%Z with (Qlog2 x + 1)%Z by lia. reflexivity. }
    assert (El : Qlog2 (round53 x) = (Qlog2 x + 1)%Z).
    { apply Qlog2_unique; rewrite Hy'; [ apply Qle_refl | ].
      apply Qpower_lt_compat_l; [ lia | reflexivity ]. }
    unfold round53 at 1. cbv zeta. rewrite El.
    replace (Qlog2 x + 1 - 52)%Z with (Qlog2 x - 51)%Z by lia.
    assert (Em : round53 x / 2 ^ (Qlog2 x - 51) == inject_Z (2 ^ 52)).
    { rewrite Hy'. rewrite <- two_inject by lia.
      replace (Qlog2 x + 1)%Z with (52 + (Qlog2 x - 51))%Z by lia.
      rewrite Qpower_plus by discriminate.
      field. apply Qnot_eq_sym, Qlt_not_eq, two_pos. }
    rewrite (nearest_even_comp _ _ Em), nearest_even_Z.
    rewrite Hy'. rewrite <- two_inject by lia.
    rewrite <- Qpower_plus by discriminate.
    replace (52 + (Qlog2 x - 51))%Z with (Qlog2 x + 1)%Z by lia. reflexivity.
  - assert (Hk : (k < 2 ^ 53)%Z) by lia.
    assert (El : Qlog2 (round53 x) = Qlog2 x).
    { apply Qlog2_unique; [ assumption | ].
      rewrite Hy.
      replace (Qlog2 x + 1)%Z with (53 + (Qlog2 x - 52))%Z by lia.
      rewrite Qpower_plus by discriminate.
      apply Qmult_lt_r; [ assumption | ].
      rewrite two_inject by lia. rewrite <- Zlt_Qlt. assumption. }
    unfold round53 at 1. cbv zeta. rewrite El.
    assert (Em : round53 x / 2 ^ (Qlog2 x - 52) == inject_Z k).
    { rewrite Hy. field. apply Qnot_eq_sym, Qlt_not_eq, two_pos. }
    rewrite (nearest_even_comp _ _ Em), nearest_even_Z. symmetry. exact Hy.
Qed.

Lemma binary64_zero (x : Q) : x == 0 -> binary64 x == 0.
Proof.
  intros E. unfold binary64.
  destruct (Qcompare_spec x 0) as [ H | H | H ]; try reflexivity;
    rewrite E in H; discriminate.
Qed.

Lemma binary64_of_pos (x : Q) : 0 < x -> binary64 x = round53 x.
Proof.
  intros Hx. unfold binary64.
  destruct (Qcompare_spec x 0) as [ H | H | H ]; try reflexivity; exfalso; lra.
Qed.

Lemma binary64_of_neg (x : Q) : x < 0 -> binary64 x = - round53 (- x).
Proof.
  intros Hx. unfold binary64.
  destruct (Qcompare_spec x 0) as [ H | H | H ]; try reflexivity; exfalso; lra.
Qed.

Lemma binary64_pos (x : Q) : 0 < x -> 0 < binary64 x.
Proof. intros Hx. rewrite binary64_of_pos by assumption. now apply round53_pos. Qed.

Lemma binary64_neg (x : Q) : x < 0 -> binary64 x < 0.
Proof.
  intros Hx. rewrite binary64_of_neg by assumption.
  assert (0 < round53 (- x)) by (apply round53_pos; lra). lra.
Qed.

Lemma binary64_nonneg (x : Q) : 0 <= x -> 0 <= binary64 x.
Proof.
  intros Hx. destruct (Qlt_le_dec 0 x) as [ H | H ].
  - apply Qlt_le_weak. now apply binary64_pos.
  - rewrite binary64_zero; [ apply Qle_refl | lra ].
Qed.

(** Rounding keeps the sign. *)
Lemma binary64_pos_iff (x : Q) : 0 < binary64 x <-> 0 < x.
Proof.
  split; [ | apply binary64_pos ].
  intros H. destruct (Qlt_le_dec 0 x) as [ Hx | Hx ]; [ assumption | ].
  exfalso. destruct (Qlt_le_dec x 0) as [ Hn | Hn ].
  - pose proof (binary64_neg x Hn). lra.
  - rewrite binary64_zero in H by lra. discriminate.
Qed.

(** Rounding is monotone. *)
Lemma binary64_mono (x y : Q) : x <= y -> binary64 x <= binary64 y.
Proof.
  intros Hxy.
  destruct (Qlt_le_dec 0 x) as [ Hx | Hx ].
  - assert (Hy : 0 < y) by lra.
    rewrite !binary64_of_pos by assumption. now apply round53_mono.
  - destruct (Qlt_le_dec 0 y) as [ Hy | Hy ].
    + apply Qle_trans with (y := 0).
      * destruct (Qlt_le_dec x 0) as [ Hn | Hn ].
        -- apply Qlt_le_weak. now apply binary64_neg.
        -- rewrite binary64_zero; [ apply Qle_refl | lra ].
      * apply Qlt_le_weak. now apply binary64_pos.
    + destruct (Qlt_le_dec y 0) as [ Hyn | Hyn ].
      * assert (Hxn : x < 0) by lra.
        rewrite !binary64_of_neg by assumption.
        apply Qopp_le_compat. apply round53_mono; lra.
      * rewrite (binary64_zero y) by lra.
        destruct (Qlt_le_dec x 0) as [ Hn | Hn ].
        -- apply Qlt_le_weak. now apply binary64_neg.
        -- rewrite binary64_zero; [ apply Qle_refl | lra ].
Qed.

Lemma binary64_comp (x y : Q) : x == y -> binary64 x == binary64 y.
Proof.
  intros E. apply Qle_antisym; apply binary64_mono; rewrite E; apply Qle_refl.
Qed.

Lemma binary64_idem (x : Q) : binary64 (binary64 x) == binary64 x.
Proof.
  destruct (Qlt_le_dec 0 x) as [ Hx | Hx ].
  - pose proof (binary64_pos x Hx) as Hp.
    rewrite (binary64_of_pos (binary64 x) Hp).
    rewrite (binary64_of_pos x Hx). now apply round53_idem.
  - destruct (Qlt_le_dec x 0) as [ Hn | Hn ].
    + pose proof (binary64_neg x Hn) as Hp.
      rewrite (binary64_of_neg (binary64 x) Hp).
      rewrite (binary64_of_neg x Hn).
      assert (Hr : 0 < round53 (- x)) by (apply round53_pos; lra).
      rewrite (round53_comp (- - round53 (- x)) (round53 (- x))).
      * rewrite round53_idem by lra. reflexivity.
      * lra.
      * ring.
    + assert (E : binary64 x == 0) by (apply binary64_zero; lra).
      rewrite (binary64_comp _ _ E), E. reflexivity.
Qed.

(** ** Vocabulary of the further properties *)

(** A model with its expected latency replaced. *)
Definition withLatency (latency : ModelConfig.t -> number) (m : ModelConfig.t)
  : ModelConfig.t :=
  {| ModelConfig.provider := ModelConfig.provider m;
     ModelConfig.model := ModelConfig.model m;
     ModelConfig.maxTokens := ModelConfig.maxTokens m;
     ModelConfig.costPer1kInput := ModelConfig.costPer1kInput m;
     ModelConfig.costPer1kOutput := ModelConfig.costPer1kOutput m;
     ModelConfig.latencyMs := latency m;
     ModelConfig.quality := ModelConfig.quality m;
     ModelConfig.capabilities := ModelConfig.capabilities m |}.

(** A router whose catalog entries have their latencies replaced. *)
Definition relatency (latency : ModelConfig.t -> number) (this : LLMRouter.t)
  : LLMRouter.t :=
  LLMRouter.mk (LLMRouter.openai this)
    (map (fun entry => (fst entry, withLatency latency (snd entry)))
         (LLMRouter.models this)).

(** The constraints with the cost ceiling removed. *)
Definition withoutCeiling (c : RoutingConstraints.t) : RoutingConstraints.t :=
  {| RoutingConstraints.maxCost := None;
     RoutingConstraints.maxLatency := RoutingConstraints.maxLatency c;
     RoutingConstraints.requiredQuality := RoutingConstraints.requiredQuality c;
     RoutingConstraints.requiredCapabilities := RoutingConstraints.requiredCapabilities c;
     RoutingConstraints.task := RoutingConstraints.task c;
     RoutingConstraints.locale := RoutingConstraints.locale c |}.

(** The organization that a cost line names. *)
Definition lineOrg (line : ConsoleLine) : option string :=
  match line with
  | log_cost_tracked orgId _ | log_embedding_cost_tracked orgId _ => Some orgId
  | _ => None
  end.

(** What the runtime throws when a property of a missing array element is
    read ([completion.choices[0].message], [embeddingResponse.data[0].embedding]). *)
Definition readOfUndefined (property : string) : exn :=
  TypeError (String.append "Cannot read properties of undefined (reading '"
               (String.append property "')")).

(** A request that names a model of its own, asks to stream and wants more
    tokens than any model gives. *)
Definition greedyRequest : ChatRequest.t :=
  {| ChatRequest.messages :=
       [ChatMessage.mk system "be brief" None;
        ChatMessage.mk user "hello" (Some "ann")];
     ChatRequest.model := Some "gpt-4o";
     ChatRequest.maxTokens := Some 200000;
     ChatRequest.temperature := None;
     ChatRequest.topP := None;
     ChatRequest.stream := Some true |}.

(** A provider whose chat completions carry usage but no choice. *)
Definition choicelessClient : OpenAI.t :=
  {| OpenAI.chat_completions_create := fun _ =>
       Reply.mk 120%Z
         (Ok {| ChatCompletion.choices := [];
                ChatCompletion.usage := Some (CompletionUsage.mk 100 50 150) |});
     OpenAI.embeddings_create := fun _ =>
       Reply.mk 15%Z (Throw (APIError 503 "Service Unavailable")) |}.

Definition embeddingModelMissing : exn := Error "Embedding model not available".

(** The argument of [this.openai.embeddings.create] in [generateEmbeddings]. *)
Definition embeddingParams (embeddingModel : ModelConfig.t) (request : EmbeddingRequest.t)
  : EmbeddingParams.t :=
  {| EmbeddingParams.model := ModelConfig.model embeddingModel;
     EmbeddingParams.input := EmbeddingRequest.input request |}.

(** An embeddings request that names a model of its own. *)
Definition namedModelTexts : EmbeddingRequest.t :=
  {| EmbeddingRequest.input := one_text "hello";
     EmbeddingRequest.model := Some "text-embedding-3-large" |}.

(** ** The callers of the router: [vector-store.ts] and the LLM routes of the
    API server

    The database client [db] and the Express response object are outside the
    router.  A SQL statement is the template of the source with its bound
    parameters; the database is an arbitrary function of the statement, like
    the provider.  The server's console holds the router's lines and the
    lines of the callers, in the order they are written. *)

Definition Json := list (string * string).

Inductive Sql : Type :=
| sql_insert_embedding (org_id content : string) (embedding : list number)
    (metadata : Json) (type : string)
| sql_similarity_search (queryEmbedding : list number) (threshold limit : number)
    (orgId type : string)
| sql_select_document (id : string)
| sql_update_embedding (content : string) (embedding : list number) (metadata : Json)
    (id : string).

Module Row.
Record t : Type := mk {
  id : string;
  org_id : string;
  content : string;
  similarity : number;
  metadata : Json;
  type : string
}.
End Row.

Definition Database := Sql -> Reply.t (list Row.t).

Inductive ServerLine : Type :=
| router_line (line : ConsoleLine)
| log_stored_embedding (id : option string)
| log_updated_embedding (id : string)
| error_store_embedding_failed (error : exn)
| error_similarity_search_failed (error : exn)
| error_update_embedding_failed (error : exn)
| error_llm_chat (error : exn)
| error_vector_search (error : exn).

Module Server.
Record t : Type := mk {
  now : Z;
  console : list ServerLine;
  network : list Outbound;
  queries : list Sql
}.
End Server.

Definition ServerM (A : Type) : Type := Server.t -> Result A * Server.t.

Definition s_ret {A} (a : A) : ServerM A := fun s => (Ok a, s).

Definition s_throw {A} (e : exn) : ServerM A := fun s => (Throw e, s).

Definition s_bind {A B} (m : ServerM A) (k : A -> ServerM B) : ServerM B :=
  fun s =>
    match m s with
    | (Ok a, s') => k a s'
    | (Throw e, s') => (Throw e, s')
    end.

Definition s_try_catch {A} (body : ServerM A) (handler : exn -> ServerM A) : ServerM A :=
  fun s =>
    match body s with
    | (Ok a, s') => (Ok a, s')
    | (Throw e, s') => handler e s'
    end.

Declare Scope server_scope.
Delimit Scope server_scope with server.
Notation "x <- m ;; k" := (s_bind m (fun x => k))
  (at level 61, m at next level, right associativity) : server_scope.
Notation "m ;;; k" := (s_bind m (fun _ => k))
  (at level 61, right associativity) : server_scope.

(** A router method run inside the server: it sees the server's clock and
    network, and the console lines it writes follow the server's. *)
Definition liftRouter {A} (m : M A) : ServerM A :=
  fun s =>
    let (result, w) := m (World.mk (Server.now s) [] (Server.network s)) in
    (result,
     Server.mk (World.now w)
               (Server.console s ++ map router_line (World.console w))
               (World.network w) (Server.queries s)).

Definition server_console (line : ServerLine) : ServerM unit :=
  fun s =>
    (Ok tt, Server.mk (Server.now s) (Server.console s ++ [line])
                      (Server.network s) (Server.queries s)).

(** [await db.execute(sql`...`)] *)
Definition db_execute (db : Database) (query : Sql) : ServerM (list Row.t) :=
  fun s =>
    (Reply.outcome (db query),
     Server.mk (Server.now s + Reply.elapsedMs (db query))%Z (Server.console s)
               (Server.network s) (Server.queries s ++ [query])).

(** [error instanceof Error ? error.message : 'Unknown error']: everything
    that is thrown here is an [Error]. *)
Definition exn_message (e : exn) : string :=
  match e with
  | Error message | TypeError message | APIError _ message => message
  end.

(** *** [vector-store.ts] *)

Inductive DocumentType : Type :=
| content_document | persona_document | policy_document | trend_document
| competitor_document.

Definition DocumentType_text (type : DocumentType) : string :=
  match type with
  | content_document => "content"
  | persona_document => "persona"
  | policy_document => "policy"
  | trend_document => "trend"
  | competitor_document => "competitor"
  end.

(** [Omit<EmbeddingDocument, 'id' | 'createdAt'>] *)
Module NewDocument.
Record t : Type := mk {
  orgId : string;
  content : string;
  embedding : list number;
  metadata : Json;
  type : DocumentType
}.
End NewDocument.

Module SimilaritySearchResult.
Record t : Type := mk {
  id : string;
  content : string;
  similarity : number;
  metadata : Json;
  type : string
}.
End SimilaritySearchResult.

Module VectorStore.
Record t : Type := mk {
  llmRouter : LLMRouter.t;
  db : Database
}.
End VectorStore.

Local Open Scope server_scope.

(** [embeddingResponse.data[0].embedding] *)
Definition first_embedding (embeddingResponse : EmbeddingResponse.t) : ServerM (list number) :=
  match EmbeddingResponse.data embeddingResponse with
  | item :: _ => s_ret (EmbeddingItem.embedding item)
  | [] => s_throw (TypeError "Cannot read properties of undefined (reading 'embedding')")
  end.

Definition storeEmbedding (this : VectorStore.t) (document : NewDocument.t)
  : ServerM (option string) :=
  s_try_catch
    ((* Generate embedding using LLM router *)
     embeddingResponse <-
       liftRouter (generateEmbeddings (VectorStore.llmRouter this)
                     {| EmbeddingRequest.input := one_text (NewDocument.content document);
                        EmbeddingRequest.model := None |}
                     (NewDocument.orgId document)) ;;
     embedding <- first_embedding embeddingResponse ;;
     (* Store in database *)
     result <- db_execute (VectorStore.db this)
                 (sql_insert_embedding (NewDocument.orgId document)
                    (NewDocument.content document) embedding
                    (NewDocument.metadata document)
                    (DocumentType_text (NewDocument.type document))) ;;
     let id := match result with
               | row :: _ => Some (Row.id row)
               | [] => None
               end in
     server_console (log_stored_embedding id) ;;;
     s_ret id)
    (fun error =>
       server_console (error_store_embedding_failed error) ;;;
       s_throw error).

Definition similaritySearch (this : VectorStore.t) (query orgId type : string)
    (threshold limit : option number) : ServerM (list SimilaritySearchResult.t) :=
  let threshold := match threshold with Some t => t | None => (binary64 0.7) end in
  let limit := match limit with Some l => l | None => 10 end in
  s_try_catch
    ((* Generate embedding for query *)
     embeddingResponse <-
       liftRouter (generateEmbeddings (VectorStore.llmRouter this)
                     {| EmbeddingRequest.input := one_text query;
                        EmbeddingRequest.model := None |}
                     orgId) ;;
     queryEmbedding <- first_embedding embeddingResponse ;;
     (* Perform similarity search *)
     results <- db_execute (VectorStore.db this)
                  (sql_similarity_search queryEmbedding threshold limit orgId type) ;;
     s_ret (map (fun row =>
                   {| SimilaritySearchResult.id := Row.id row;
                      SimilaritySearchResult.content := Row.content row;
                      SimilaritySearchResult.similarity := Row.similarity row;
                      SimilaritySearchResult.metadata := Row.metadata row;
                      SimilaritySearchResult.type := Row.type row |})
                results))
    (fun error =>
       server_console (error_similarity_search_failed error) ;;;
       s_throw error).

Definition updateEmbedding (this : VectorStore.t) (id content : string)
    (metadata : option Json) : ServerM unit :=
  s_try_catch
    ((* Get the document to regenerate embedding *)
     rows <- db_execute (VectorStore.db this) (sql_select_document id) ;;
     doc <- match rows with
            | doc :: _ => s_ret doc
            | [] => s_throw (Error "Document not found")
            end ;;
     (* Generate new embedding *)
     embeddingResponse <-
       liftRouter (generateEmbeddings (VectorStore.llmRouter this)
                     {| EmbeddingRequest.input := one_text content;
                        EmbeddingRequest.model := None |}
                     (Row.org_id doc)) ;;
     embedding <- first_embedding embeddingResponse ;;
     (* Update in database *)
     db_execute (VectorStore.db this)
       (sql_update_embedding content embedding
          (match metadata with Some m => m | None => [] end) id) ;;;
     server_console (log_updated_embedding id) ;;;
     s_ret tt)
    (fun error =>
       server_console (error_update_embedding_failed error) ;;;
       s_throw error).

(** *** The LLM routes of the API server *)

(** [req.body.messages]: missing (or otherwise falsy), present but not an
    array, or an array of messages. *)
Inductive BodyMessages : Type :=
| messages_missing
| messages_not_array
| messages_array (messages : list ChatMessage.t).

Module ChatBody.
Record t : Type := mk {
  messages : BodyMessages;
  model : option string;
  maxTokens : option number;
  temperature : option number;
  topP : option number
}.
End ChatBody.

Module SearchBody.
Record t : Type := mk {
  query : option string;
  type : option string;
  threshold : option number;
  limit : option number
}.
End SearchBody.

(** What [res.status(...).json(...)] sends. *)
Inductive ResponseBody : Type :=
| json_error_code (error code : string)
| json_error_details (error details : string)
| json_chat (response : ModelResponse.t)
| json_search (results : list SimilaritySearchResult.t) (query type : string)
    (threshold limit : number).

Module HttpResponse.
Record t : Type := mk {
  status : Z;
  body : ResponseBody
}.
End HttpResponse.

(** A string in a boolean position: [undefined] and [""] are falsy. *)
Definition truthy_string (s : option string) : bool :=
  match s with
  | Some v => negb (String.eqb v "")
  | None => false
  end.

(** [app.post('/api/llm/chat', auth, ...)], after [auth] has run. *)
Definition postLlmChat (llmRouter : LLMRouter.t) (body : ChatBody.t)
    (orgId : option string) : ServerM HttpResponse.t :=
  s_try_catch
    (match ChatBody.messages body with
     | messages_missing | messages_not_array =>
         s_ret (HttpResponse.mk 400
                  (json_error_code "Messages array is required" "ValidationError"))
     | messages_array messages =>
         response <-
           liftRouter (chatCompletion llmRouter
                         {| ChatRequest.messages := messages;
                            ChatRequest.model := ChatBody.model body;
                            ChatRequest.maxTokens := ChatBody.maxTokens body;
                            ChatRequest.temperature := ChatBody.temperature body;
                            ChatRequest.topP := ChatBody.topP body;
                            ChatRequest.stream := None |}
                         (or_default_string orgId "default") None) ;;
         s_ret (HttpResponse.mk 200 (json_chat response))
     end)
    (fun error =>
       server_console (error_llm_chat error) ;;;
       s_ret (HttpResponse.mk 500
                (json_error_details "Chat completion failed" (exn_message error)))).

(** [app.post('/api/vector/search', auth, ...)], after [auth] has run. *)
Definition postVectorSearch (vectorStore : VectorStore.t) (body : SearchBody.t)
    (orgId : string) : ServerM HttpResponse.t :=
  s_try_catch
    (if negb (truthy_string (SearchBody.query body))
        || negb (truthy_string (SearchBody.type body))
     then s_ret (HttpResponse.mk 400
                   (json_error_code "Query and type are required" "ValidationError"))
     else
       let query := or_default_string (SearchBody.query body) "" in
       let type := or_default_string (SearchBody.type body) "" in
       results <- similaritySearch vectorStore query orgId type
                    (Some (or_default (SearchBody.threshold body) (binary64 0.7)))
                    (Some (or_default (SearchBody.limit body) 10)) ;;
       s_ret (HttpResponse.mk 200
                (json_search results query type
                   (or_default (SearchBody.threshold body) (binary64 0.7))
                   (or_default (SearchBody.limit body) 10))))
    (fun error =>
       server_console (error_vector_search error) ;;;
       s_ret (HttpResponse.mk 500
                (json_error_details "Vector search failed" (exn_message error)))).

Local Close Scope server_scope.

Definition documentNotFound : exn := Error "Document not found".

Definition emptyServer : Server.t := Server.mk 0 [] [] [].

(** A database that answers every statement with one row. *)
Definition oneRowDatabase : Database :=
  fun _ => Reply.mk 4%Z
             (Ok [Row.mk "doc-1" "acme" "stored text" (binary64 0.9) [("lang", "en")] "persona"]).

(** A database that knows no document. *)
Definition emptyDatabase : Database := fun _ => Reply.mk 4%Z (Ok []).

Definition sampleDocument : NewDocument.t :=
  {| NewDocument.orgId := "acme";
     NewDocument.content := "hello";
     NewDocument.embedding := [9; 9];
     NewDocument.metadata := [("lang", "en")];
     NewDocument.type := persona_document |}.

(** ** Numbers and arrays *)

Lemma gtb_true_iff (a b : number) : gtb a b = true <-> b < a.
Proof.
  unfold gtb. rewrite negb_true_iff. split.
  - intros H. apply Qnot_le_lt. intros Hle.
    apply Qle_bool_iff in Hle. congruence.
  - intros H. destruct (Qle_bool a b) eqn:E; [ | reflexivity ].
    apply Qle_bool_iff in E. exfalso. apply (Qlt_not_le _ _ H E).
Qed.

Lemma gtb_false_iff (a b : number) : gtb a b = false <-> a <= b.
Proof.
  unfold gtb. rewrite negb_false_iff. apply Qle_bool_iff.
Qed.

Lemma truthy_false_iff (x : number) : truthy x = false <-> x == 0.
Proof.
  unfold truthy. rewrite negb_false_iff. apply Qeq_bool_iff.
Qed.

Lemma truthy_true_iff (x : number) : truthy x = true <-> ~ x == 0.
Proof.
  unfold truthy. rewrite negb_true_iff. split.
  - intros H E. apply Qeq_bool_iff in E. congruence.
  - intros H. destruct (Qeq_bool x 0) eqn:E; [ | reflexivity ].
    apply Qeq_bool_iff in E. contradiction.
Qed.

Lemma includes_In (xs : list string) (x : string) : includes xs x = true <-> In x xs.
Proof.
  unfold includes. rewrite existsb_exists. split.
  - intros [y [Hy E]]. apply String.eqb_eq in E. now subst.
  - intros H. exists x. split; [ assumption | apply String.eqb_refl ].
Qed.

Lemma routeCompare_after (a b : ModelConfig.t) :
  gtb (routeCompare a b) 0 = true <-> combinedRate b < combinedRate a.
Proof.
  rewrite gtb_true_iff. unfold routeCompare, js_sub. cbv zeta.
  fold (combinedRate a). fold (combinedRate b).
  rewrite binary64_pos_iff. split; intros H; lra.
Qed.

Lemma routeCompare_not_after (a b : ModelConfig.t) :
  gtb (routeCompare a b) 0 = false <-> combinedRate a <= combinedRate b.
Proof.
  destruct (gtb (routeCompare a b) 0) eqn:E.
  - apply routeCompare_after in E. split; [ discriminate | ]. intros H. lra.
  - split; [ | reflexivity ]. intros _.
    apply Qnot_lt_le. intros H. apply routeCompare_after in H. congruence.
Qed.

(** The first element of an array sorted by [routeCompare] is the earliest
    element of minimal combined rate: everything before it in the original
    array costs strictly more, everything after it costs at least as much. *)
Lemma sort_first (l : list ModelConfig.t) :
  l <> [] ->
  exists before first after rest,
    l = before ++ first :: after /\
    sort routeCompare l = first :: rest /\
    Forall (fun m => combinedRate first < combinedRate m) before /\
    Forall (fun m => combinedRate first <= combinedRate m) after.
Proof.
  induction l as [ | a l IH ]; intros Hne; [ congruence | ].
  destruct l as [ | b l ].
  - exists [], a, [], []. repeat split; constructor.
  - destruct IH as (before & first & after & rest & Hl & Hs & Hb & Ha);
      [ discriminate | ].
    change (sort routeCompare (a :: b :: l))
      with (insert_sorted routeCompare a (sort routeCompare (b :: l))).
    rewrite Hs. cbn [insert_sorted].
    destruct (gtb (routeCompare a first) 0) eqn:E.
    + apply routeCompare_after in E.
      exists (a :: before), first, after, (insert_sorted routeCompare a rest).
      rewrite Hl. repeat split; auto.
    + apply routeCompare_not_after in E.
      exists [], a, (b :: l), (first :: rest).
      repeat split; [ constructor | ].
      rewrite Hl. apply Forall_app. split.
      * eapply Forall_impl; [ | exact Hb ]. cbv beta. intros m Hm. lra.
      * constructor; [ assumption | ].
        eapply Forall_impl; [ | exact Ha ]. cbv beta. intros m Hm. lra.
Qed.

Lemma length_zero_nil {A} (l : list A) : (List.length l =? 0)%nat = true <-> l = [].
Proof.
  destruct l; cbn; split; congruence.
Qed.

(** ** The filter of [routeRequest] is the conjunction of the three filters *)

Lemma quality_guards (required actual : Quality) :
  (Quality_eqb required high && negb (Quality_eqb actual high)
   || Quality_eqb required medium && Quality_eqb actual low) = false
  <-> (Quality_rank required <= Quality_rank actual)%nat.
Proof.
  destruct required, actual; cbn; split; intros H; try reflexivity;
    try discriminate; try lia.
Qed.

Lemma capabilities_guard (c : RoutingConstraints.t) (m : ModelConfig.t) :
  forallb (fun cap => includes (ModelConfig.capabilities m) cap)
          (RoutingConstraints.requiredCapabilities c) = true
  <-> capabilityFilter c m.
Proof.
  unfold capabilityFilter. rewrite forallb_forall.
  split; intros H cap Hin; apply includes_In; auto.
Qed.

Lemma budget_guard (c : RoutingConstraints.t) (m : ModelConfig.t) :
  match RoutingConstraints.maxCost c with
  | Some maxCost =>
      truthy maxCost
      && gtb (js_add (ModelConfig.costPer1kInput m) (ModelConfig.costPer1kOutput m))
             maxCost
  | None => false
  end = false
  <-> costFilter c m.
Proof.
  unfold costFilter, combinedRate.
  destruct (RoutingConstraints.maxCost c) as [ maxCost | ]; [ | tauto ].
  rewrite andb_false_iff, truthy_false_iff, gtb_false_iff. split.
  - intros [ H | H ] Hnz; [ contradiction | assumption ].
  - intros H. destruct (Qeq_dec maxCost 0) as [ E | E ]; auto.
Qed.

Lemma routeFilter_feasible (c : RoutingConstraints.t) (m : ModelConfig.t) :
  routeFilter c m = true <-> feasible c m.
Proof.
  unfold feasible, qualityFilter.
  rewrite <- quality_guards, <- capabilities_guard, <- budget_guard.
  unfold routeFilter.
  destruct (Quality_eqb (RoutingConstraints.requiredQuality c) high
            && negb (Quality_eqb (ModelConfig.quality m) high));
    [ cbn; intuition discriminate | ].
  destruct (Quality_eqb (RoutingConstraints.requiredQuality c) medium
            && Quality_eqb (ModelConfig.quality m) low);
    [ cbn; intuition discriminate | ].
  cbv zeta.
  destruct (forallb _ _); [ | cbn; intuition discriminate ].
  destruct (match RoutingConstraints.maxCost c with Some _ => _ | None => _ end);
    cbn; intuition discriminate.
Qed.

(** ** [routeRequest] on an arbitrary catalog *)

Lemma routeRequest_none (this : LLMRouter.t) (c : RoutingConstraints.t) :
  filter (routeFilter c) (catalog this) = [] ->
  routeRequest this c = Throw noModelsAvailable.
Proof.
  intros H. unfold routeRequest. fold (catalog this). rewrite H. reflexivity.
Qed.

(** With a non-empty filtered array the result is its earliest entry of
    minimal combined rate. *)
Lemma routeRequest_selects (this : LLMRouter.t) (c : RoutingConstraints.t) :
  filter (routeFilter c) (catalog this) <> [] ->
  exists before first after,
    filter (routeFilter c) (catalog this) = before ++ first :: after /\
    routeRequest this c = Ok first /\
    Forall (fun m => combinedRate first < combinedRate m) before /\
    Forall (fun m => combinedRate first <= combinedRate m) after.
Proof.
  intros Hne.
  destruct (sort_first _ Hne) as (before & first & after & rest & Hl & Hs & Hb & Ha).
  exists before, first, after. repeat split; try assumption.
  unfold routeRequest. fold (catalog this).
  destruct (List.length (filter (routeFilter c) (catalog this)) =? 0)%nat eqn:E.
  - apply length_zero_nil in E. contradiction.
  - cbv zeta. rewrite Hs. reflexivity.
Qed.

(** [routeRequest] ends in exactly one of two ways: the "no models" error,
    or a model of the catalog that passed the filter. *)
Lemma routeRequest_cases (this : LLMRouter.t) (c : RoutingConstraints.t) :
  routeRequest this c = Throw noModelsAvailable
  \/ exists m, routeRequest this c = Ok m /\ In m (catalog this) /\ feasible c m.
Proof.
  destruct (filter (routeFilter c) (catalog this)) as [ | a l ] eqn:E.
  - left. now apply routeRequest_none.
  - right.
    destruct (routeRequest_selects this c) as (before & first & after & Hl & Hr & _);
      [ rewrite E; discriminate | ].
    exists first. split; [ assumption | ].
    assert (Hin : In first (filter (routeFilter c) (catalog this))).
    { rewrite Hl. apply in_or_app. right. now left. }
    apply filter_In in Hin. destruct Hin as [Hin Hf].
    split; [ assumption | now apply routeFilter_feasible ].
Qed.

Lemma routeRequest_Ok_feasible (this : LLMRouter.t) (c : RoutingConstraints.t)
    (m : ModelConfig.t) :
  routeRequest this c = Ok m -> In m (catalog this) /\ feasible c m.
Proof.
  intros H. destruct (routeRequest_cases this c) as [ E | (m' & E & Hin & Hf) ];
    rewrite E in H; [ discriminate | ].
  injection H as <-. now split.
Qed.

Lemma feasible_in_filter (this : LLMRouter.t) (c : RoutingConstraints.t)
    (m : ModelConfig.t) :
  In m (catalog this) -> feasible c m ->
  In m (filter (routeFilter c) (catalog this)).
Proof.
  intros Hin Hf. apply filter_In. split; [ assumption | ].
  now apply routeFilter_feasible.
Qed.

(** The selected model is a cheapest feasible one, on every catalog. *)
Lemma routeRequest_cheapest (this : LLMRouter.t) (c : RoutingConstraints.t)
    (m : ModelConfig.t) :
  In m (catalog this) -> feasible c m ->
  exists best,
    routeRequest this c = Ok best /\ In best (catalog this) /\ feasible c best /\
    forall other, In other (catalog this) -> feasible c other ->
                  combinedRate best <= combinedRate other.
Proof.
  intros Hin Hf.
  pose proof (feasible_in_filter this c m Hin Hf) as Hm.
  destruct (routeRequest_selects this c) as (before & best & after & Hl & Hr & Hb & Ha).
  { intros E. rewrite E in Hm. contradiction. }
  exists best. split; [ assumption | ].
  destruct (routeRequest_Ok_feasible this c best Hr) as [Hbin Hbf].
  repeat split; try assumption; try apply Hbf.
  intros other Hoin Hof.
  pose proof (feasible_in_filter this c other Hoin Hof) as Ho.
  rewrite Hl in Ho. apply in_app_or in Ho. destruct Ho as [ Ho | [ <- | Ho ] ].
  - rewrite Forall_forall in Hb. apply Qlt_le_weak. now apply Hb.
  - apply Qle_refl.
  - rewrite Forall_forall in Ha. now apply Ha.
Qed.

(** Where the filtered array splits, the catalog splits. *)
Lemma filter_split {A} (keep : A -> bool) (l : list A) :
  forall before x after,
    filter keep l = before ++ x :: after ->
    exists l1 l2,
      l = l1 ++ x :: l2 /\ filter keep l1 = before /\ filter keep l2 = after /\
      keep x = true.
Proof.
  induction l as [ | a l IH ]; intros before x after H; cbn in H.
  - destruct before; discriminate.
  - destruct (keep a) eqn:Ea.
    + destruct before as [ | b before ]; cbn in H.
      * injection H as <- <-. exists [], l. cbn. auto.
      * injection H as <- H.
        destruct (IH _ _ _ H) as (l1 & l2 & -> & <- & <- & Hx).
        exists (a :: l1), l2. cbn. rewrite Ea. auto.
    + destruct (IH _ _ _ H) as (l1 & l2 & -> & <- & <- & Hx).
      exists (a :: l1), l2. cbn. rewrite Ea. auto.
Qed.




(** The combined rate is the rounded sum: 0.00015 + 0.0006 is the double
    0.0007499999999999999, so a ceiling of that value keeps [gpt-4o-mini]
    although it is below 0.00075. *)
Example routeRequest_ceiling_at_rounded_sum :
  binary64 0.0007499999999999999 < 0.00075 /\
  routeRequest (new_LLMRouter failingClient)
    (RoutingConstraints.mk (Some (binary64 0.0007499999999999999)) 5000 medium
       ["reasoning"] "chat" "en")
  = Ok gpt4oMini.
Proof.
  split; vm_compute; reflexivity.
Qed.

(** Sums that tie as decimals need not tie as doubles: 0.1 + 0.2 is above
    0.3 + 0, so the model inserted second is the cheaper one and is
    returned. *)
Example routeRequest_orders_rounded_sums :
  routeRequest
    (LLMRouter.mk failingClient
       [("a", ModelConfig.mk "openai" "a" 4096 (binary64 0.1) (binary64 0.2) 100 medium
                ["reasoning"]);
        ("b", ModelConfig.mk "openai" "b" 4096 (binary64 0.3) 0 100 medium
                ["reasoning"])])
    (RoutingConstraints.mk None 5000 medium ["reasoning"] "chat" "en")
  = Ok (ModelConfig.mk "openai" "b" 4096 (binary64 0.3) 0 100 medium ["reasoning"]).
Proof.
  vm_compute. reflexivity.
Qed.


Lemma chatConstraints_infeasible (client : OpenAI.t) (m : ModelConfig.t) :
  In m (catalog (new_LLMRouter client)) -> ~ feasible chatConstraints m.
Proof.
  intros Hin Hf. apply routeFilter_feasible in Hf. cbn in Hin.
  destruct Hin as [ <- | [ <- | [ <- | [ <- | [] ] ] ] ];
    vm_compute in Hf; discriminate.
Defined.




(** ** Running the entry points *)

Ltac run_router :=
  unfold invoke, chatCompletion, generateEmbeddings, getCostSummary,
    first_choice, bind, ret, throw, try_catch, await, Date_now,
    console_error, console_log, call_provider;
  cbn [fst snd World.now World.console World.network].

Lemma routeRequest_shipped_chat (client : OpenAI.t) :
  routeRequest (new_LLMRouter client) chatConstraints = Throw noModelsAvailable.
Proof.
  destruct (routeRequest_cases (new_LLMRouter client) chatConstraints)
    as [ E | (m & _ & Hin & Hf) ]; [ assumption | ].
  exfalso. exact (chatConstraints_infeasible client m Hin Hf).
Qed.

(** C2 (as the code behaves). On the catalog built by the constructor the
    routing step of [chatCompletion] fails for every request: nothing is sent
    to the provider, nothing is logged, and no response is returned. *)
Theorem chatCompletion_never_routes
    (client : OpenAI.t) (request : ChatRequest.t) (orgId : string)
    (userId : option string) (w : World.t) :
  chatCompletion (new_LLMRouter client) request orgId userId w
  = (Throw noModelsAvailable, w).
Proof.
  run_router. rewrite routeRequest_shipped_chat. reflexivity.
Qed.

(** The defaults that the specification names do select a model on the same
    catalog. *)
Example routeRequest_specified_defaults (client : OpenAI.t) :
  exists best,
    routeRequest (new_LLMRouter client) specifiedChatConstraints = Ok best /\
    ModelConfig.model best = "gpt-4o-mini".
Proof.
  eexists. split; [ vm_compute; reflexivity | reflexivity ].
Qed.

Lemma costLines_app (now1 now2 : Z) (console : list ConsoleLine)
    (lines : list ConsoleLine) (net1 net2 : list Outbound) :
  costLines (World.mk now1 (console ++ lines) net1)
  = costLines (World.mk now2 console net2) ++ filter isCostLine lines.
Proof.
  unfold costLines. cbn [World.console]. apply filter_app.
Qed.

(** C7. When the provider call of [chatCompletion] or [generateEmbeddings]
    fails, the same error is thrown to the caller, no response is returned,
    and no cost line is written: the console gains the failure line only. *)
Theorem provider_failure_is_rethrown
    (this : LLMRouter.t) (orgId : string) (op : Operation) (w : World.t)
    (request : Outbound) (e : exn) :
  providerCall this op = Some (request, Throw e) ->
  exists w',
    invoke this orgId op w = (Throw e, w') /\
    World.network w' = World.network w ++ [request] /\
    World.console w' = World.console w ++ [failureLine op e] /\
    costLines w' = costLines w.
Proof.
  destruct op as [ chat userId | embed ]; unfold providerCall; run_router.
  - destruct (routeRequest this chatConstraints) as [ selectedModel | ];
      [ | discriminate ].
    cbv zeta.
    destruct (Reply.outcome (OpenAI.chat_completions_create _ _)) eqn:E;
      [ discriminate | ].
    intros H. injection H as <- <-.
    eexists. split; [ reflexivity | ]. cbn [World.network World.console].
    repeat split. destruct w. rewrite costLines_app with (now2 := now) (net2 := network).
    cbn. apply app_nil_r.
  - destruct (Map_get (LLMRouter.models this) "text-embedding-3-small")
      as [ embeddingModel | ]; [ | discriminate ].
    cbv zeta.
    destruct (Reply.outcome (OpenAI.embeddings_create _ _)) eqn:E;
      [ discriminate | ].
    intros H. injection H as <- <-.
    eexists. split; [ reflexivity | ]. cbn [World.network World.console].
    repeat split. destruct w. rewrite costLines_app with (now2 := now) (net2 := network).
    cbn. apply app_nil_r.
Qed.

(** An embeddings call on the shipped router against a provider that rejects
    it. *)
Lemma provider_failure_is_rethrown_witness :
  providerCall (new_LLMRouter failingClient) (embeddings_operation twoTexts)
  = Some (sent_embeddings
            (EmbeddingParams.mk "text-embedding-3-small" (many_texts ["first"; "second"])),
          Throw (APIError 503 "Service Unavailable")) /\
  exists w',
    invoke (new_LLMRouter failingClient) "acme" (embeddings_operation twoTexts) emptyWorld
    = (Throw (APIError 503 "Service Unavailable"), w') /\
    World.network w'
    = World.network emptyWorld
      ++ [sent_embeddings
            (EmbeddingParams.mk "text-embedding-3-small" (many_texts ["first"; "second"]))] /\
    World.console w'
    = World.console emptyWorld
      ++ [failureLine (embeddings_operation twoTexts)
            (APIError 503 "Service Unavailable")] /\
    costLines w' = costLines emptyWorld.
Proof.
  split; [ reflexivity | ].
  apply (provider_failure_is_rethrown (new_LLMRouter failingClient) "acme"
           (embeddings_operation twoTexts) emptyWorld).
  reflexivity.
Defined.

(** The same on the chat path, for a catalog on which routing succeeds. *)
Example chat_provider_failure_is_rethrown :
  exists w',
    chatCompletion (taggedRouter failingClient) helloRequest "acme" None emptyWorld
    = (Throw (APIError 503 "Service Unavailable"), w') /\
    World.console w'
    = [error_chat_completion_failed (APIError 503 "Service Unavailable")].
Proof.
  eexists. split; vm_compute; reflexivity.
Qed.

(** C9. When the provider's completion carries no usage block,
    [chatCompletion] throws: no response is returned, no cost line is written
    (no token count is made up and [calculateCost] is not reached), and the
    console gains the failure line only. *)
Theorem chatCompletion_without_usage_fails
    (this : LLMRouter.t) (request : ChatRequest.t) (orgId : string)
    (userId : option string) (w : World.t)
    (selectedModel : ModelConfig.t) (completion : ChatCompletion.t) :
  routeRequest this chatConstraints = Ok selectedModel ->
  Reply.outcome (OpenAI.chat_completions_create (LLMRouter.openai this)
                   (chatParams selectedModel request)) = Ok completion ->
  ChatCompletion.usage completion = None ->
  exists w',
    chatCompletion this request orgId userId w = (Throw noUsageData, w') /\
    World.console w' = World.console w ++ [error_chat_completion_failed noUsageData] /\
    costLines w' = costLines w.
Proof.
  intros Hroute Hreply Husage. run_router.
  rewrite Hroute. cbv zeta. rewrite Hreply, Husage.
  eexists. split; [ reflexivity | ]. cbn [World.console]. split; [ reflexivity | ].
  destruct w. rewrite costLines_app with (now2 := now) (net2 := network).
  cbn. apply app_nil_r.
Qed.

Lemma chatCompletion_without_usage_fails_witness :
  routeRequest (taggedRouter usagelessClient) chatConstraints = Ok gpt4oMiniTagged /\
  exists w',
    chatCompletion (taggedRouter usagelessClient) helloRequest "acme" None emptyWorld
    = (Throw noUsageData, w') /\
    World.console w'
    = World.console emptyWorld ++ [error_chat_completion_failed noUsageData] /\
    costLines w' = costLines emptyWorld.
Proof.
  assert (Hroute : routeRequest (taggedRouter usagelessClient) chatConstraints
                   = Ok gpt4oMiniTagged).
  { vm_compute. reflexivity. }
  split; [ exact Hroute | ].
  apply (chatCompletion_without_usage_fails (taggedRouter usagelessClient)
           helloRequest "acme" None emptyWorld gpt4oMiniTagged
           (ChatCompletion.mk [Choice.mk (Some "hello") "stop"] None) Hroute);
    reflexivity.
Defined.

(** 175 prompt tokens on [text-embedding-3-small]: the cost that the code
    computes and prints is not the exact value of the formula, which would
    print one millionth more. *)
Lemma computed_cost_is_not_exact :
  fst (invoke (new_LLMRouter shortTextClient) "acme" (embeddings_operation oneText)
         emptyWorld)
  = Ok (embeddings_envelope
          (EmbeddingResponse.mk [EmbeddingItem.mk [0.25; 5] 0 "embedding"]
             "text-embedding-3-small" (EmbeddingUsage.mk 175 175))) /\
  metered (new_LLMRouter shortTextClient) (embeddings_operation oneText)
  = Some (embeddingSmall, 175, 0) /\
  World.console
    (snd (invoke (new_LLMRouter shortTextClient) "acme" (embeddings_operation oneText)
            emptyWorld))
  = [log_embedding_cost_tracked "acme" 3] /\
  toFixed6 (exactCost 175 0 embeddingSmall) = 4%Z /\
  ~ calculateCost 175 0 embeddingSmall == exactCost 175 0 embeddingSmall.
Proof.
  split; [ vm_compute; reflexivity | ].
  split; [ vm_compute; reflexivity | ].
  split; [ vm_compute; reflexivity | ].
  split; [ vm_compute; reflexivity | ].
  intros H. vm_compute in H. discriminate H.
Qed.

(** C4 (as the code behaves). For every call that succeeds, with the token
    counts of the provider's usage block and the rates of the model used, the
    cost is the formula (i/1000)*costPer1kInput + (o/1000)*costPer1kOutput
    evaluated in binary64, each division, product and the sum rounded to the
    nearest double.  That value is returned unchanged by a chat call, and the
    console line of either call prints it with six decimals; no other
    rounding is applied. *)
Theorem computed_cost_is_rounded_formula
    (this : LLMRouter.t) (orgId : string) (op : Operation) (w w' : World.t)
    (envelope : Envelope) :
  invoke this orgId op w = (Ok envelope, w') ->
  exists model inputTokens outputTokens,
    metered this op = Some (model, inputTokens, outputTokens) /\
    World.console w'
    = World.console w
      ++ [costLine op orgId
            (binary64
               (binary64 (binary64 (inputTokens / 1000) * ModelConfig.costPer1kInput model)
                + binary64 (binary64 (outputTokens / 1000)
                            * ModelConfig.costPer1kOutput model)))] /\
    forall response,
      envelope = chat_envelope response ->
      Usage.promptTokens (ModelResponse.usage response) = inputTokens /\
      Usage.completionTokens (ModelResponse.usage response) = outputTokens /\
      Usage.cost (ModelResponse.usage response)
      = binary64
          (binary64 (binary64 (inputTokens / 1000) * ModelConfig.costPer1kInput model)
           + binary64 (binary64 (outputTokens / 1000)
                       * ModelConfig.costPer1kOutput model)).
Proof.
  destruct op as [ request userId | request ]; unfold metered; run_router.
  - destruct (routeRequest this chatConstraints) as [ selectedModel | ];
      [ | discriminate ].
    cbv zeta.
    destruct (Reply.outcome (OpenAI.chat_completions_create _ _))
      as [ completion | ]; [ | discriminate ].
    destruct (ChatCompletion.usage completion) as [ usage | ]; [ | discriminate ].
    destruct (ChatCompletion.choices completion) as [ | choice choices ];
      [ discriminate | ].
    intros H. injection H as <- <-.
    eexists. eexists. eexists. split; [ reflexivity | ].
    split; [ reflexivity | ].
    intros response H. injection H as <-. cbn. repeat split.
  - destruct (Map_get (LLMRouter.models this) "text-embedding-3-small")
      as [ embeddingModel | ]; [ | discriminate ].
    cbv zeta.
    destruct (Reply.outcome (OpenAI.embeddings_create _ _)) as [ reply | ];
      [ | discriminate ].
    intros H. injection H as <- <-.
    eexists. eexists. eexists. split; [ reflexivity | ].
    split; [ reflexivity | ].
    intros response H. discriminate H.
Qed.

(** The embeddings call of 175 tokens on the shipped router. *)
Lemma computed_cost_is_rounded_formula_witness :
  invoke (new_LLMRouter shortTextClient) "acme" (embeddings_operation oneText) emptyWorld
  = (Ok (embeddings_envelope
           (EmbeddingResponse.mk [EmbeddingItem.mk [0.25; 5] 0 "embedding"]
              "text-embedding-3-small" (EmbeddingUsage.mk 175 175))),
     World.mk 30 [log_embedding_cost_tracked "acme" 3]
       [sent_embeddings (EmbeddingParams.mk "text-embedding-3-small" (one_text "hello"))]) /\
  exists model inputTokens outputTokens,
    metered (new_LLMRouter shortTextClient) (embeddings_operation oneText)
    = Some (model, inputTokens, outputTokens) /\
    [log_embedding_cost_tracked "acme" 3]
    = World.console emptyWorld
      ++ [costLine (embeddings_operation oneText) "acme"
            (binary64
               (binary64 (binary64 (inputTokens / 1000) * ModelConfig.costPer1kInput model)
                + binary64 (binary64 (outputTokens / 1000)
                            * ModelConfig.costPer1kOutput model)))].
Proof.
  assert (Hrun : invoke (new_LLMRouter shortTextClient) "acme"
                   (embeddings_operation oneText) emptyWorld
                 = (Ok (embeddings_envelope
                          (EmbeddingResponse.mk [EmbeddingItem.mk [0.25; 5] 0 "embedding"]
                             "text-embedding-3-small" (EmbeddingUsage.mk 175 175))),
                    World.mk 30 [log_embedding_cost_tracked "acme" 3]
                      [sent_embeddings
                         (EmbeddingParams.mk "text-embedding-3-small" (one_text "hello"))])).
  { vm_compute. reflexivity. }
  split; [ exact Hrun | ].
  destruct (computed_cost_is_rounded_formula _ _ _ _ _ _ Hrun)
    as (model & inputTokens & outputTokens & Hmetered & Hconsole & _).
  exists model, inputTokens, outputTokens. split; [ exact Hmetered | exact Hconsole ].
Defined.

(** 100 prompt and 50 completion tokens on [gpt-4o-mini]: the cost returned
    is the double 0.000044999999999999996, not 0.000045, and the console
    prints 0.000045. *)
Example chatCompletion_cost_example :
  chatCompletion (taggedRouter answeringClient) helloRequest "acme" None emptyWorld
  = (Ok helloResponse, helloWorldAfter) /\
  Usage.cost (ModelResponse.usage helloResponse) == binary64 0.000044999999999999996 /\
  ~ Usage.cost (ModelResponse.usage helloResponse) == 0.000045 /\
  toFixed6 (Usage.cost (ModelResponse.usage helloResponse)) = 45%Z /\
  toFixed6 (calculateCost 10 0 gpt4oMiniTagged) = 1%Z.
Proof.
  split; [ vm_compute; reflexivity | ].
  split; [ vm_compute; reflexivity | ].
  split; [ intros H; vm_compute in H; discriminate H | ].
  split; vm_compute; reflexivity.
Qed.

Lemma or_default_omitted (x : option number) (d : number) :
  omittedOrZero x -> or_default x d = d.
Proof.
  destruct x as [ v | ]; cbn; [ | reflexivity ].
  intros H. apply truthy_false_iff in H. rewrite H. reflexivity.
Qed.

Lemma or_default_supplied (x : option number) (v d : number) :
  suppliedNonzero x v -> or_default x d = v.
Proof.
  intros [-> H]. cbn. apply truthy_true_iff in H. rewrite H. reflexivity.
Qed.

(** Once a model is selected, exactly one request goes to the provider,
    whatever happens afterwards. *)
Lemma chatCompletion_sends (this : LLMRouter.t) (request : ChatRequest.t)
    (orgId : string) (userId : option string) (w : World.t)
    (selectedModel : ModelConfig.t) :
  routeRequest this chatConstraints = Ok selectedModel ->
  World.network (snd (chatCompletion this request orgId userId w))
  = World.network w ++ [sent_chat (chatParams selectedModel request)].
Proof.
  intros Hroute. run_router. rewrite Hroute. cbv zeta.
  destruct (Reply.outcome (OpenAI.chat_completions_create _ _)) as [ completion | ];
    [ | reflexivity ].
  destruct (ChatCompletion.usage completion); [ | reflexivity ].
  destruct (ChatCompletion.choices completion); reflexivity.
Qed.

(** C10. In the request that [chatCompletion] sends to the provider, a
    generation parameter that is zero is treated as an omitted one:
    [max_tokens] is [min(1000, model.maxTokens)], [temperature] is 0.7 and
    [top_p] is 1; a supplied nonzero temperature or topP goes out unchanged
    and a supplied nonzero maxTokens goes out as
    [min(requested, model.maxTokens)]. *)
Theorem chatCompletion_generation_parameters
    (this : LLMRouter.t) (request : ChatRequest.t) (orgId : string)
    (userId : option string) (w : World.t) (selectedModel : ModelConfig.t) :
  routeRequest this chatConstraints = Ok selectedModel ->
  exists params,
    World.network (snd (chatCompletion this request orgId userId w))
    = World.network w ++ [sent_chat params] /\
    (omittedOrZero (ChatRequest.maxTokens request) ->
     ChatParams.max_tokens params = Qmin 1000 (ModelConfig.maxTokens selectedModel)) /\
    (forall n, suppliedNonzero (ChatRequest.maxTokens request) n ->
     ChatParams.max_tokens params = Qmin n (ModelConfig.maxTokens selectedModel)) /\
    (omittedOrZero (ChatRequest.temperature request) ->
     ChatParams.temperature params = binary64 0.7) /\
    (forall t, suppliedNonzero (ChatRequest.temperature request) t ->
     ChatParams.temperature params = t) /\
    (omittedOrZero (ChatRequest.topP request) -> ChatParams.top_p params = 1) /\
    (forall p, suppliedNonzero (ChatRequest.topP request) p ->
     ChatParams.top_p params = p).
Proof.
  intros Hroute. exists (chatParams selectedModel request).
  split; [ now apply chatCompletion_sends | ].
  unfold chatParams. cbn.
  repeat split; intros;
    first [ erewrite or_default_omitted by eassumption
          | erewrite or_default_supplied by eassumption ];
    reflexivity.
Qed.

(** [helloRequest] omits maxTokens, gives temperature 0 and topP 0.9. *)
Lemma chatCompletion_generation_parameters_witness :
  routeRequest (taggedRouter answeringClient) chatConstraints = Ok gpt4oMiniTagged /\
  omittedOrZero (ChatRequest.maxTokens helloRequest) /\
  omittedOrZero (ChatRequest.temperature helloRequest) /\
  suppliedNonzero (ChatRequest.topP helloRequest) (binary64 0.9) /\
  exists params,
    World.network (snd (chatCompletion (taggedRouter answeringClient) helloRequest
                          "acme" None emptyWorld))
    = World.network emptyWorld ++ [sent_chat params] /\
    ChatParams.max_tokens params = Qmin 1000 128000 /\
    ChatParams.temperature params = binary64 0.7 /\
    ChatParams.top_p params = binary64 0.9.
Proof.
  assert (Hroute : routeRequest (taggedRouter answeringClient) chatConstraints
                   = Ok gpt4oMiniTagged).
  { vm_compute. reflexivity. }
  assert (Hmax : omittedOrZero (ChatRequest.maxTokens helloRequest)).
  { exact I. }
  assert (Htemp : omittedOrZero (ChatRequest.temperature helloRequest)).
  { cbn. reflexivity. }
  assert (Htop : suppliedNonzero (ChatRequest.topP helloRequest) (binary64 0.9)).
  { split; [ reflexivity | ]. intros E. vm_compute in E. discriminate. }
  repeat (split; [ assumption | ]).
  destruct (chatCompletion_generation_parameters (taggedRouter answeringClient)
              helloRequest "acme" None emptyWorld gpt4oMiniTagged Hroute)
    as (params & Hsent & Hm & _ & Ht & _ & _ & Hp).
  exists params. split; [ exact Hsent | ].
  split; [ exact (Hm Hmax) | ].
  split; [ exact (Ht Htemp) | exact (Hp (binary64 0.9) Htop) ].
Defined.

Lemma copy_items (items : list EmbeddingItem.t) :
  map (fun item =>
         {| EmbeddingItem.embedding := EmbeddingItem.embedding item;
            EmbeddingItem.index := EmbeddingItem.index item;
            EmbeddingItem.object := EmbeddingItem.object item |}) items
  = items.
Proof.
  induction items as [ | [ embedding index object ] items IH ]; cbn;
    [ reflexivity | ].
  now rewrite IH.
Qed.

(** What a successful [generateEmbeddings] is made of. *)
Lemma generateEmbeddings_Ok (this : LLMRouter.t) (request : EmbeddingRequest.t)
    (orgId : string) (w w' : World.t) (response : EmbeddingResponse.t) :
  generateEmbeddings this request orgId w = (Ok response, w') ->
  exists embeddingModel reply,
    Map_get (LLMRouter.models this) "text-embedding-3-small" = Some embeddingModel /\
    Reply.outcome (OpenAI.embeddings_create (LLMRouter.openai this)
                     (EmbeddingParams.mk (ModelConfig.model embeddingModel)
                        (EmbeddingRequest.input request))) = Ok reply /\
    EmbeddingResponse.data response = CreateEmbeddingResponse.data reply /\
    EmbeddingResponse.usage response
    = EmbeddingUsage.mk
        (CreateEmbeddingUsage.prompt_tokens (CreateEmbeddingResponse.usage reply))
        (CreateEmbeddingUsage.total_tokens (CreateEmbeddingResponse.usage reply)) /\
    World.console w'
    = World.console w
      ++ [log_embedding_cost_tracked orgId
            (toFixed6 (calculateCost
                         (CreateEmbeddingUsage.prompt_tokens
                            (CreateEmbeddingResponse.usage reply))
                         0 embeddingModel))].
Proof.
  run_router.
  destruct (Map_get (LLMRouter.models this) "text-embedding-3-small")
    as [ embeddingModel | ]; [ | discriminate ].
  cbv zeta.
  destruct (Reply.outcome (OpenAI.embeddings_create _ _)) as [ reply | ] eqn:Hreply;
    [ | discriminate ].
  intros H. injection H as <- <-.
  exists embeddingModel, reply. cbn. rewrite copy_items. repeat split. exact Hreply.
Qed.

Lemma calculateCost_no_output (inputTokens : number) (model : ModelConfig.t) :
  calculateCost inputTokens 0 model
  == js_mul (js_div inputTokens 1000) (ModelConfig.costPer1kInput model).
Proof.
  unfold calculateCost, js_add. cbv zeta.
  assert (E0 : js_mul (js_div 0 1000) (ModelConfig.costPer1kOutput model) == 0).
  { unfold js_mul, js_div. apply binary64_zero.
    rewrite (binary64_zero (0 / 1000)) by reflexivity. ring. }
  rewrite (binary64_comp _ (js_mul (js_div inputTokens 1000)
                              (ModelConfig.costPer1kInput model))).
  - unfold js_mul at 1. apply binary64_idem.
  - rewrite E0. ring.
Qed.

(** One text sent, no vector returned, and the call succeeds: the router
    does not check the number of vectors. *)
Lemma generateEmbeddings_can_return_no_vector :
  exists response w',
    generateEmbeddings (new_LLMRouter vectorlessClient) oneText "acme" emptyWorld
    = (Ok response, w') /\
    List.length (inputTexts (EmbeddingRequest.input oneText)) = 1%nat /\
    List.length (EmbeddingResponse.data response) = 0%nat.
Proof.
  eexists. eexists. split; [ vm_compute; reflexivity | ].
  split; reflexivity.
Qed.

(** C6 (as the code behaves). A [generateEmbeddings] call that succeeds
    returns exactly the items of the provider's reply, unchanged and in the
    provider's order, so as many vectors as the provider sent: k vectors for
    k texts when the provider answers with one item per text.  The cost of
    the call is computed with 0 output tokens: it is the rounded input term
    (prompt_tokens/1000)*costPer1kInput alone. *)
Theorem generateEmbeddings_relays_provider_vectors
    (this : LLMRouter.t) (request : EmbeddingRequest.t) (orgId : string)
    (w w' : World.t) (response : EmbeddingResponse.t) :
  generateEmbeddings this request orgId w = (Ok response, w') ->
  exists embeddingModel reply,
    Map_get (LLMRouter.models this) "text-embedding-3-small" = Some embeddingModel /\
    Reply.outcome (OpenAI.embeddings_create (LLMRouter.openai this)
                     (EmbeddingParams.mk (ModelConfig.model embeddingModel)
                        (EmbeddingRequest.input request))) = Ok reply /\
    EmbeddingResponse.data response = CreateEmbeddingResponse.data reply /\
    (forall i, nth_error (EmbeddingResponse.data response) i
               = nth_error (CreateEmbeddingResponse.data reply) i) /\
    (oneItemPerInput (LLMRouter.openai this) ->
     List.length (EmbeddingResponse.data response)
     = List.length (inputTexts (EmbeddingRequest.input request))) /\
    World.console w'
    = World.console w
      ++ [log_embedding_cost_tracked orgId
            (toFixed6 (calculateCost
                         (CreateEmbeddingUsage.prompt_tokens
                            (CreateEmbeddingResponse.usage reply))
                         0 embeddingModel))] /\
    calculateCost (CreateEmbeddingUsage.prompt_tokens (CreateEmbeddingResponse.usage reply))
                  0 embeddingModel
    == js_mul (js_div (CreateEmbeddingUsage.prompt_tokens
                         (CreateEmbeddingResponse.usage reply)) 1000)
              (ModelConfig.costPer1kInput embeddingModel).
Proof.
  intros Hrun.
  destruct (generateEmbeddings_Ok _ _ _ _ _ _ Hrun)
    as (embeddingModel & reply & Hget & Hreply & Hdata & _ & Hconsole).
  exists embeddingModel, reply. repeat split; try assumption.
  - intros i. now rewrite Hdata.
  - intros Hcontract. rewrite Hdata. exact (Hcontract _ _ Hreply).
  - apply calculateCost_no_output.
Qed.

(** Two texts on the shipped router: the two vectors of the provider, in its
    order. *)
Lemma generateEmbeddings_relays_provider_vectors_witness :
  generateEmbeddings (new_LLMRouter answeringClient) twoTexts "acme" emptyWorld
  = (Ok twoVectors, twoTextsWorldAfter) /\
  exists embeddingModel reply,
    Reply.outcome (OpenAI.embeddings_create
                     (LLMRouter.openai (new_LLMRouter answeringClient))
                     (EmbeddingParams.mk (ModelConfig.model embeddingModel)
                        (EmbeddingRequest.input twoTexts))) = Ok reply /\
    EmbeddingResponse.data twoVectors = CreateEmbeddingResponse.data reply.
Proof.
  assert (Hrun : generateEmbeddings (new_LLMRouter answeringClient) twoTexts "acme"
                   emptyWorld
                 = (Ok twoVectors, twoTextsWorldAfter)).
  { vm_compute. reflexivity. }
  split; [ exact Hrun | ].
  destruct (generateEmbeddings_relays_provider_vectors _ _ _ _ _ _ Hrun)
    as (embeddingModel & reply & _ & Hreply & Hdata & _).
  exists embeddingModel, reply. split; [ exact Hreply | exact Hdata ].
Defined.

(** One embeddings call recorded for "acme" (1000 tokens, cost 0.00002),
    then the summary for "acme": it counts no request. *)
Lemma getCostSummary_misses_recorded_call :
  ~ summaryFoldsRun (new_LLMRouter answeringClient) "acme"
      [embeddings_operation twoTexts] emptyWorld.
Proof.
  unfold summaryFoldsRun.
  change (serve (new_LLMRouter answeringClient) "acme"
            [embeddings_operation twoTexts] emptyWorld)
    with (let (result, w1) :=
            invoke (new_LLMRouter answeringClient) "acme"
                   (embeddings_operation twoTexts) emptyWorld in
          (result :: @nil (Result Envelope), w1)).
  assert (Hrun : invoke (new_LLMRouter answeringClient) "acme"
                   (embeddings_operation twoTexts) emptyWorld
                 = (Ok (embeddings_envelope twoVectors), twoTextsWorldAfter)).
  { vm_compute. reflexivity. }
  rewrite Hrun.
  intros (summary & w2 & Hsummary & _ & _ & Hrequests).
  unfold getCostSummary in Hsummary. run_router. cbn in Hsummary.
  injection Hsummary as <- _.
  vm_compute in Hrequests. discriminate.
Qed.

(** C3 (as the code behaves). Whatever calls were made before, for this or
    for any other organization, [getCostSummary] returns the placeholder
    summary: total cost 0, total tokens 0, request count 0 and an empty
    breakdown.  It writes one console line and reads no record. *)
Theorem getCostSummary_returns_placeholder
    (this : LLMRouter.t) (caller orgId : string) (ops : list Operation)
    (month : option string) (w : World.t) :
  exists w2,
    getCostSummary this orgId month (snd (serve this caller ops w))
    = (Ok placeholderSummary, w2) /\
    CostSummary.totalCost placeholderSummary == 0 /\
    CostSummary.totalTokens placeholderSummary == 0 /\
    CostSummary.requests placeholderSummary == 0 /\
    CostSummary.breakdown placeholderSummary = [] /\
    costLines w2 = costLines (snd (serve this caller ops w)).
Proof.
  run_router. eexists. split; [ reflexivity | ].
  repeat split; try reflexivity.
  destruct (snd (serve this caller ops w)) as [ now console network ].
  cbn [World.now World.console World.network].
  rewrite costLines_app with (now2 := now) (net2 := network).
  cbn. apply app_nil_r.
Qed.

(** * Further properties of the router *)

(** ** Selection on an arbitrary catalog *)

Lemma routeFilter_false_iff (c : RoutingConstraints.t) (m : ModelConfig.t) :
  routeFilter c m = false <-> ~ feasible c m.
Proof.
  rewrite <- routeFilter_feasible. destruct (routeFilter c m); split; congruence.
Qed.

(** X1. [routeRequest] fails in one way only, with the "no models available"
    error, and it does so exactly when no model of the catalog passes the
    three filters. *)
Theorem routeRequest_throws_iff_infeasible
    (this : LLMRouter.t) (c : RoutingConstraints.t) :
  (forall e, routeRequest this c = Throw e -> e = noModelsAvailable) /\
  (routeRequest this c = Throw noModelsAvailable
   <-> forall m, In m (catalog this) -> ~ feasible c m).
Proof.
  split.
  - intros e H.
    destruct (routeRequest_cases this c) as [ E | (m & E & _) ];
      rewrite E in H; [ congruence | discriminate ].
  - split.
    + intros H m Hin Hf.
      destruct (routeRequest_cheapest this c m Hin Hf) as (best & E & _).
      rewrite E in H. discriminate.
    + intros Hnone.
      destruct (routeRequest_cases this c) as [ E | (m & _ & Hin & Hf) ];
        [ assumption | ].
      exfalso. exact (Hnone m Hin Hf).
Qed.

(** ** Latency is never consulted *)

Lemma insert_sorted_map {A} (cmp : A -> A -> number) (g : A -> A) (a : A)
    (l : list A) :
  (forall x y, cmp (g x) (g y) = cmp x y) ->
  insert_sorted cmp (g a) (map g l) = map g (insert_sorted cmp a l).
Proof.
  intros Hcmp. induction l as [ | b l IH ]; cbn; [ reflexivity | ].
  rewrite Hcmp. destruct (gtb (cmp a b) 0); cbn; [ now rewrite IH | reflexivity ].
Qed.

Lemma sort_map {A} (cmp : A -> A -> number) (g : A -> A) (l : list A) :
  (forall x y, cmp (g x) (g y) = cmp x y) ->
  sort cmp (map g l) = map g (sort cmp l).
Proof.
  intros Hcmp. induction l as [ | a l IH ]; cbn; [ reflexivity | ].
  fold (sort cmp (map g l)). fold (sort cmp l).
  rewrite IH. now apply insert_sorted_map.
Qed.

Lemma filter_map_same {A} (keep keep' : A -> bool) (g : A -> A) (l : list A) :
  (forall x, keep' (g x) = keep x) ->
  filter keep' (map g l) = map g (filter keep l).
Proof.
  intros Hkeep. induction l as [ | a l IH ]; cbn; [ reflexivity | ].
  rewrite Hkeep. destruct (keep a); cbn; now rewrite IH.
Qed.

(** X3. Selection never looks at a latency: replace the [latencyMs] of every
    catalog entry and the [maxLatency], [task] and [locale] of the
    constraints by anything, and [routeRequest] fails as before or returns
    the same entry (with its new latency). *)
Theorem routeRequest_ignores_latency
    (this : LLMRouter.t) (latency : ModelConfig.t -> number)
    (maxCost : option number) (quality : Quality) (capabilities : list string)
    (maxLatency maxLatency' : number) (task task' locale locale' : string) :
  routeRequest (relatency latency this)
    (RoutingConstraints.mk maxCost maxLatency' quality capabilities task' locale')
  = match routeRequest this
            (RoutingConstraints.mk maxCost maxLatency quality capabilities task locale) with
    | Ok selected => Ok (withLatency latency selected)
    | Throw e => Throw e
    end.
Proof.
  unfold routeRequest, relatency, Map_values. cbn [LLMRouter.models].
  rewrite map_map. cbn [snd].
  rewrite <- (map_map snd (withLatency latency)).
  rewrite (filter_map_same
             (routeFilter (RoutingConstraints.mk maxCost maxLatency quality
                             capabilities task locale)))
    by reflexivity.
  rewrite length_map.
  destruct (List.length _ =? 0)%nat; [ reflexivity | ].
  cbv zeta. rewrite sort_map by reflexivity.
  destruct (sort routeCompare _); reflexivity.
Qed.

(** ** The cost ceiling decides whether a model is chosen, not which *)

Lemma sort_head_in (l : list ModelConfig.t) (first : ModelConfig.t)
    (rest : list ModelConfig.t) :
  sort routeCompare l = first :: rest -> In first l.
Proof.
  intros H. destruct l as [ | a l ]; [ discriminate | ].
  destruct (sort_first (a :: l)) as (before & x & after & r & Hl & Hs & _);
    [ discriminate | ].
  rewrite Hs in H. injection H as <- _. rewrite Hl.
  apply in_or_app. right. now left.
Qed.

(** A split of the array with strictly dearer models before and no cheaper
    model after pins down the first element of the sorted array. *)
Lemma sort_first_of_split (before after : list ModelConfig.t) (first : ModelConfig.t) :
  Forall (fun m => combinedRate first < combinedRate m) before ->
  Forall (fun m => combinedRate first <= combinedRate m) after ->
  exists rest, sort routeCompare (before ++ first :: after) = first :: rest.
Proof.
  intros Hb Ha. induction Hb as [ | y before Hy Hb IH ].
  - cbn [app].
    change (sort routeCompare (first :: after))
      with (insert_sorted routeCompare first (sort routeCompare after)).
    destruct (sort routeCompare after) as [ | x rest ] eqn:E; cbn.
    + eexists. reflexivity.
    + pose proof (sort_head_in _ _ _ E) as Hx.
      rewrite Forall_forall in Ha. specialize (Ha x Hx).
      apply routeCompare_not_after in Ha. rewrite Ha. eexists. reflexivity.
  - destruct IH as [ rest IH ]. cbn [app].
    change (sort routeCompare (y :: before ++ first :: after))
      with (insert_sorted routeCompare y
              (sort routeCompare (before ++ first :: after))).
    rewrite IH. cbn.
    apply routeCompare_after in Hy. rewrite Hy. eexists. reflexivity.
Qed.

Lemma routeFilter_withoutCeiling (c : RoutingConstraints.t) (m : ModelConfig.t) :
  routeFilter c m = true -> routeFilter (withoutCeiling c) m = true.
Proof.
  rewrite !routeFilter_feasible. unfold feasible, qualityFilter, capabilityFilter,
    costFilter, withoutCeiling. cbn. tauto.
Qed.

(** A model that only the ceiling excludes costs more than any model that
    the ceiling admits. *)
Lemma excluded_by_ceiling_is_dearer (c : RoutingConstraints.t)
    (kept dropped : ModelConfig.t) :
  routeFilter c kept = true ->
  routeFilter c dropped = false ->
  routeFilter (withoutCeiling c) dropped = true ->
  combinedRate kept < combinedRate dropped.
Proof.
  rewrite !routeFilter_feasible, routeFilter_false_iff.
  unfold feasible, qualityFilter, capabilityFilter, costFilter, withoutCeiling.
  cbn. intros (_ & _ & Hk) Hd (Hq & Hc & _).
  destruct (RoutingConstraints.maxCost c) as [ maxCost | ]; [ | tauto ].
  destruct (Qeq_dec maxCost 0) as [ E | E ]; [ tauto | ].
  specialize (Hk E).
  apply Qnot_le_lt. intros Hle. apply Hd. repeat split; try assumption.
  intros _. lra.
Qed.

(** X4. The cost ceiling never changes which model is chosen: whenever
    [routeRequest] returns a model under some [maxCost], it returns the same
    model with the ceiling removed. *)
Theorem routeRequest_ceiling_keeps_choice
    (this : LLMRouter.t) (c : RoutingConstraints.t) (selected : ModelConfig.t) :
  routeRequest this c = Ok selected ->
  routeRequest this (withoutCeiling c) = Ok selected.
Proof.
  intros Hr.
  destruct (routeRequest_selects this c) as (before & best & after & Hl & Hr' & Hb & Ha).
  { intros E. rewrite (routeRequest_none this c E) in Hr. discriminate. }
  rewrite Hr in Hr'. injection Hr' as <-.
  destruct (filter_split _ _ _ _ _ Hl) as (l1 & l2 & Hcat & Hl1 & Hl2 & Hsel).
  assert (Hwider : forall l kept,
             Forall (fun m => combinedRate selected <= combinedRate m) kept ->
             filter (routeFilter c) l = kept ->
             Forall (fun m => combinedRate selected <= combinedRate m)
                    (filter (routeFilter (withoutCeiling c)) l)
             /\ (Forall (fun m => combinedRate selected < combinedRate m) kept ->
                 Forall (fun m => combinedRate selected < combinedRate m)
                        (filter (routeFilter (withoutCeiling c)) l))).
  { induction l as [ | a l IH ]; intros kept Hk Hfl; cbn in *.
    - split; constructor.
    - destruct (routeFilter c a) eqn:Ea.
      + rewrite (routeFilter_withoutCeiling c a Ea).
        destruct kept as [ | k kept ]; [ discriminate | ].
        injection Hfl as <- Hfl. inversion Hk as [ | ? ? Hk1 Hk2 ]; subst.
        destruct (IH _ Hk2 eq_refl) as [ IH1 IH2 ].
        split; [ constructor; assumption | ].
        intros Hs. inversion Hs; subst. constructor; auto.
      + destruct (IH kept Hk Hfl) as [ IH1 IH2 ].
        destruct (routeFilter (withoutCeiling c) a) eqn:Ea'; [ | split; assumption ].
        pose proof (excluded_by_ceiling_is_dearer c selected a Hsel Ea Ea') as Hlt.
        split; [ constructor; [ now apply Qlt_le_weak | assumption ] | ].
        intros Hs. constructor; auto. }
  assert (Hb' : Forall (fun m => combinedRate selected <= combinedRate m) before).
  { eapply Forall_impl; [ | exact Hb ]. cbv beta. intros. now apply Qlt_le_weak. }
  destruct (Hwider l1 before Hb' Hl1) as [ _ Hbefore ]. specialize (Hbefore Hb).
  destruct (Hwider l2 after Ha Hl2) as [ Hafter _ ].
  destruct (sort_first_of_split _ _ selected Hbefore Hafter) as [ rest Hsort ].
  unfold routeRequest. fold (catalog this). rewrite Hcat, filter_app. cbn [filter].
  rewrite (routeFilter_withoutCeiling c selected Hsel).
  destruct (List.length _ =? 0)%nat eqn:E.
  - apply length_zero_nil in E. apply app_eq_nil in E. destruct E as [ _ E ].
    discriminate E.
  - cbv zeta. rewrite Hsort. reflexivity.
Qed.

(** A ceiling of 0.10 on the shipped catalog, medium quality and reasoning:
    [gpt-4o-mini] with or without the ceiling. *)
Lemma routeRequest_ceiling_keeps_choice_witness :
  routeRequest (new_LLMRouter answeringClient) specifiedChatConstraints
  = Ok gpt4oMini /\
  routeRequest (new_LLMRouter answeringClient) (withoutCeiling specifiedChatConstraints)
  = Ok gpt4oMini.
Proof.
  assert (Hr : routeRequest (new_LLMRouter answeringClient) specifiedChatConstraints
               = Ok gpt4oMini).
  { vm_compute. reflexivity. }
  split; [ exact Hr | ].
  exact (routeRequest_ceiling_keeps_choice (new_LLMRouter answeringClient)
           specifiedChatConstraints gpt4oMini Hr).
Defined.

(** ** Relaxing the constraints *)

(** X5. Relaxing the constraints never costs more: if [routeRequest] returns
    a model, then with a lower required quality and fewer required
    capabilities (and the same ceiling) it still returns a model, of a
    combined rate no higher. *)
Theorem routeRequest_relaxed_is_no_dearer
    (this : LLMRouter.t) (c relaxed : RoutingConstraints.t) (selected : ModelConfig.t) :
  (Quality_rank (RoutingConstraints.requiredQuality relaxed)
   <= Quality_rank (RoutingConstraints.requiredQuality c))%nat ->
  incl (RoutingConstraints.requiredCapabilities relaxed)
       (RoutingConstraints.requiredCapabilities c) ->
  RoutingConstraints.maxCost relaxed = RoutingConstraints.maxCost c ->
  routeRequest this c = Ok selected ->
  exists selected',
    routeRequest this relaxed = Ok selected' /\
    combinedRate selected' <= combinedRate selected.
Proof.
  intros Hq Hc Hm Hr.
  destruct (routeRequest_Ok_feasible this c selected Hr) as [ Hin (Hfq & Hfc & Hfm) ].
  assert (Hf : feasible relaxed selected).
  { repeat split.
    - unfold qualityFilter in *. lia.
    - intros cap Hcap. apply Hfc. now apply Hc.
    - unfold costFilter in *. now rewrite Hm. }
  destruct (routeRequest_cheapest this relaxed selected Hin Hf)
    as (best & Hbest & _ & _ & Hmin).
  exists best. split; [ assumption | ]. now apply Hmin.
Qed.

(** High quality with multimodal selects [gpt-4o]; low quality with nothing
    required selects something cheaper. *)
Lemma routeRequest_relaxed_is_no_dearer_witness :
  routeRequest (new_LLMRouter answeringClient)
    (RoutingConstraints.mk (Some (binary64 0.10)) 5000 high ["multimodal"] "chat" "en")
  = Ok gpt4o /\
  exists selected',
    routeRequest (new_LLMRouter answeringClient)
      (RoutingConstraints.mk (Some (binary64 0.10)) 100 low [] "chat" "en")
    = Ok selected' /\
    combinedRate selected' <= combinedRate gpt4o.
Proof.
  assert (Hr : routeRequest (new_LLMRouter answeringClient)
                 (RoutingConstraints.mk (Some (binary64 0.10)) 5000 high ["multimodal"] "chat" "en")
               = Ok gpt4o).
  { vm_compute. reflexivity. }
  split; [ exact Hr | ].
  apply (routeRequest_relaxed_is_no_dearer (new_LLMRouter answeringClient)
           (RoutingConstraints.mk (Some (binary64 0.10)) 5000 high ["multimodal"] "chat" "en")
           (RoutingConstraints.mk (Some (binary64 0.10)) 100 low [] "chat" "en") gpt4o).
  - cbn. lia.
  - intros cap Hcap. destruct Hcap.
  - reflexivity.
  - exact Hr.
Defined.

(** ** What [chatCompletion] sends and returns *)

(** X6. The request that [chatCompletion] sends names the routed model
    whatever [request.model] says, never streams whatever [request.stream]
    says, asks for at most the routed model's [maxTokens], and carries the
    roles and contents of the caller's messages in their order. *)
Theorem chatCompletion_request_shape
    (this : LLMRouter.t) (request : ChatRequest.t) (orgId : string)
    (userId : option string) (w : World.t) (selectedModel : ModelConfig.t) :
  routeRequest this chatConstraints = Ok selectedModel ->
  exists params,
    World.network (snd (chatCompletion this request orgId userId w))
    = World.network w ++ [sent_chat params] /\
    ChatParams.model params = ModelConfig.model selectedModel /\
    ChatParams.stream params = false /\
    ChatParams.max_tokens params <= ModelConfig.maxTokens selectedModel /\
    map fst (ChatParams.messages params)
    = map ChatMessage.role (ChatRequest.messages request) /\
    map snd (ChatParams.messages params)
    = map ChatMessage.content (ChatRequest.messages request).
Proof.
  intros Hroute. exists (chatParams selectedModel request).
  split; [ now apply chatCompletion_sends | ].
  unfold chatParams. cbn. repeat split.
  - apply Q.le_min_r.
  - rewrite map_map. reflexivity.
  - rewrite map_map. reflexivity.
Qed.

(** A request that names another model, asks to stream and wants 200000
    tokens. *)
Lemma chatCompletion_request_shape_witness :
  routeRequest (taggedRouter answeringClient) chatConstraints = Ok gpt4oMiniTagged /\
  exists params,
    World.network (snd (chatCompletion (taggedRouter answeringClient) greedyRequest
                          "acme" None emptyWorld))
    = World.network emptyWorld ++ [sent_chat params] /\
    ChatParams.model params = ModelConfig.model gpt4oMiniTagged /\
    ChatParams.stream params = false /\
    ChatParams.max_tokens params <= ModelConfig.maxTokens gpt4oMiniTagged /\
    map fst (ChatParams.messages params)
    = map ChatMessage.role (ChatRequest.messages greedyRequest) /\
    map snd (ChatParams.messages params)
    = map ChatMessage.content (ChatRequest.messages greedyRequest).
Proof.
  assert (Hroute : routeRequest (taggedRouter answeringClient) chatConstraints
                   = Ok gpt4oMiniTagged).
  { vm_compute. reflexivity. }
  split; [ exact Hroute | ].
  exact (chatCompletion_request_shape (taggedRouter answeringClient) greedyRequest
           "acme" None emptyWorld gpt4oMiniTagged Hroute).
Defined.

(** X7. A chat call that succeeds echoes the provider and the name of the
    routed model, takes the three token counts from the provider as they are
    (prompt, completion and total, the total not recomputed), returns the
    cost that [calculateCost] gives for the prompt and completion counts on
    the routed model, turns a missing or empty content into the empty string,
    and leaves exactly one new console line: the cost line of the caller's
    organization, printing that cost. *)
Theorem chatCompletion_success_shape
    (this : LLMRouter.t) (request : ChatRequest.t) (orgId : string)
    (userId : option string) (w w' : World.t) (response : ModelResponse.t) :
  chatCompletion this request orgId userId w = (Ok response, w') ->
  exists selectedModel completion usage choice choices,
    routeRequest this chatConstraints = Ok selectedModel /\
    Reply.outcome (OpenAI.chat_completions_create (LLMRouter.openai this)
                     (chatParams selectedModel request)) = Ok completion /\
    ChatCompletion.usage completion = Some usage /\
    ChatCompletion.choices completion = choice :: choices /\
    ModelResponse.provider response = ModelConfig.provider selectedModel /\
    ModelResponse.model response = ModelConfig.model selectedModel /\
    ModelResponse.content response = or_default_string (Choice.content choice) "" /\
    Usage.promptTokens (ModelResponse.usage response)
    = CompletionUsage.prompt_tokens usage /\
    Usage.completionTokens (ModelResponse.usage response)
    = CompletionUsage.completion_tokens usage /\
    Usage.totalTokens (ModelResponse.usage response)
    = CompletionUsage.total_tokens usage /\
    Usage.cost (ModelResponse.usage response)
    = calculateCost (CompletionUsage.prompt_tokens usage)
                    (CompletionUsage.completion_tokens usage) selectedModel /\
    ModelResponse.metadata response
    = [("finishReason", Choice.finish_reason choice);
       ("model", ModelConfig.model selectedModel)] /\
    World.console w'
    = World.console w
      ++ [log_cost_tracked orgId (toFixed6 (Usage.cost (ModelResponse.usage response)))].
Proof.
  run_router.
  destruct (routeRequest this chatConstraints) as [ selectedModel | ];
    [ | discriminate ].
  cbv zeta.
  destruct (Reply.outcome (OpenAI.chat_completions_create _ _))
    as [ completion | ] eqn:Hreply; [ | discriminate ].
  destruct (ChatCompletion.usage completion) as [ usage | ] eqn:Husage;
    [ | discriminate ].
  destruct (ChatCompletion.choices completion) as [ | choice choices ] eqn:Hchoices;
    [ discriminate | ].
  intros H. injection H as <- <-.
  exists selectedModel, completion, usage, choice, choices.
  cbn. repeat split; assumption.
Qed.

Lemma chatCompletion_success_shape_witness :
  chatCompletion (taggedRouter answeringClient) helloRequest "acme" None emptyWorld
  = (Ok helloResponse, helloWorldAfter) /\
  ModelResponse.model helloResponse = "gpt-4o-mini" /\
  World.console helloWorldAfter = [log_cost_tracked "acme" 45].
Proof.
  assert (Hrun : chatCompletion (taggedRouter answeringClient) helloRequest "acme" None
                   emptyWorld
                 = (Ok helloResponse, helloWorldAfter)).
  { vm_compute. reflexivity. }
  split; [ exact Hrun | ].
  destruct (chatCompletion_success_shape _ _ _ _ _ _ _ Hrun)
    as (selectedModel & completion & usage & choice & choices
        & Hroute & _ & _ & _ & _ & Hmodel & _ & _ & _ & _ & _ & _ & Hconsole).
  vm_compute in Hroute. injection Hroute as <-.
  split; [ exact Hmodel | ]. reflexivity.
Defined.

(** X8. A completion that carries usage but no choice makes [chatCompletion]
    fail after the cost was tracked: the console gains the cost line and then
    the failure line, and the caller gets a [TypeError], no response. *)
Theorem chatCompletion_without_choices
    (this : LLMRouter.t) (request : ChatRequest.t) (orgId : string)
    (userId : option string) (w : World.t)
    (selectedModel : ModelConfig.t) (usage : CompletionUsage.t) :
  routeRequest this chatConstraints = Ok selectedModel ->
  Reply.outcome (OpenAI.chat_completions_create (LLMRouter.openai this)
                   (chatParams selectedModel request))
  = Ok (ChatCompletion.mk [] (Some usage)) ->
  exists w',
    chatCompletion this request orgId userId w = (Throw (readOfUndefined "message"), w') /\
    World.console w'
    = World.console w
      ++ [log_cost_tracked orgId
            (toFixed6 (calculateCost (CompletionUsage.prompt_tokens usage)
                                     (CompletionUsage.completion_tokens usage)
                                     selectedModel));
          error_chat_completion_failed (readOfUndefined "message")].
Proof.
  intros Hroute Hreply. run_router. rewrite Hroute. cbv zeta. rewrite Hreply.
  cbn. eexists. split; [ reflexivity | ].
  cbn. rewrite <- app_assoc. reflexivity.
Qed.

Lemma chatCompletion_without_choices_witness :
  routeRequest (taggedRouter choicelessClient) chatConstraints = Ok gpt4oMiniTagged /\
  exists w',
    chatCompletion (taggedRouter choicelessClient) helloRequest "acme" None emptyWorld
    = (Throw (readOfUndefined "message"), w') /\
    World.console w'
    = World.console emptyWorld
      ++ [log_cost_tracked "acme"
            (toFixed6 (calculateCost 100 50 gpt4oMiniTagged));
          error_chat_completion_failed (readOfUndefined "message")].
Proof.
  assert (Hroute : routeRequest (taggedRouter choicelessClient) chatConstraints
                   = Ok gpt4oMiniTagged).
  { vm_compute. reflexivity. }
  split; [ exact Hroute | ].
  apply (chatCompletion_without_choices (taggedRouter choicelessClient) helloRequest
           "acme" None emptyWorld gpt4oMiniTagged (CompletionUsage.mk 100 50 150) Hroute).
  reflexivity.
Defined.

(** ** [generateEmbeddings] *)

(** X9. On a router whose catalog has no entry under
    [text-embedding-3-small], [generateEmbeddings] throws "Embedding model
    not available" before the [try] block: nothing is sent and nothing is
    logged, not even the failure line. *)
Theorem generateEmbeddings_without_catalog_entry
    (this : LLMRouter.t) (request : EmbeddingRequest.t) (orgId : string)
    (w : World.t) :
  Map_get (LLMRouter.models this) "text-embedding-3-small" = None ->
  generateEmbeddings this request orgId w = (Throw embeddingModelMissing, w).
Proof.
  intros Hget. run_router. rewrite Hget. reflexivity.
Qed.

Lemma generateEmbeddings_without_catalog_entry_witness :
  Map_get (LLMRouter.models tiedRouter) "text-embedding-3-small" = None /\
  generateEmbeddings tiedRouter twoTexts "acme" emptyWorld
  = (Throw embeddingModelMissing, emptyWorld).
Proof.
  assert (Hget : Map_get (LLMRouter.models tiedRouter) "text-embedding-3-small" = None).
  { reflexivity. }
  split; [ exact Hget | ].
  exact (generateEmbeddings_without_catalog_entry tiedRouter twoTexts "acme"
           emptyWorld Hget).
Defined.

(** X10. With the entry present, [generateEmbeddings] sends exactly one
    request, for that entry's model and the caller's input unchanged,
    whatever [request.model] says and without consulting [routeRequest]; the
    call fails exactly when the provider does, with the provider's error. *)
Theorem generateEmbeddings_mirrors_provider
    (this : LLMRouter.t) (request : EmbeddingRequest.t) (orgId : string)
    (w : World.t) (embeddingModel : ModelConfig.t) :
  Map_get (LLMRouter.models this) "text-embedding-3-small" = Some embeddingModel ->
  World.network (snd (generateEmbeddings this request orgId w))
  = World.network w ++ [sent_embeddings (embeddingParams embeddingModel request)] /\
  forall e,
    fst (generateEmbeddings this request orgId w) = Throw e
    <-> Reply.outcome (OpenAI.embeddings_create (LLMRouter.openai this)
                         (embeddingParams embeddingModel request)) = Throw e.
Proof.
  intros Hget. run_router. rewrite Hget. cbv zeta.
  fold (embeddingParams embeddingModel request).
  destruct (Reply.outcome (OpenAI.embeddings_create _ _)) as [ reply | e' ];
    cbn; split; try reflexivity; intros e; split; congruence.
Qed.

Lemma generateEmbeddings_mirrors_provider_witness :
  Map_get (LLMRouter.models (new_LLMRouter answeringClient)) "text-embedding-3-small"
  = Some embeddingSmall /\
  World.network (snd (generateEmbeddings (new_LLMRouter answeringClient)
                        namedModelTexts "acme" emptyWorld))
  = World.network emptyWorld
    ++ [sent_embeddings (EmbeddingParams.mk "text-embedding-3-small" (one_text "hello"))].
Proof.
  assert (Hget : Map_get (LLMRouter.models (new_LLMRouter answeringClient))
                   "text-embedding-3-small" = Some embeddingSmall).
  { reflexivity. }
  split; [ exact Hget | ].
  exact (proj1 (generateEmbeddings_mirrors_provider (new_LLMRouter answeringClient)
                  namedModelTexts "acme" emptyWorld embeddingSmall Hget)).
Defined.

(** ** Runs of operations *)

(** What one operation does to the world: at most one request leaves, at
    most two console lines are written, every cost line names the caller's
    organization, and a success means one request and one cost line. *)
Lemma invoke_effects (this : LLMRouter.t) (orgId : string) (op : Operation)
    (w : World.t) :
  exists sent lines,
    World.network (snd (invoke this orgId op w)) = World.network w ++ sent /\
    World.console (snd (invoke this orgId op w)) = World.console w ++ lines /\
    (List.length sent <= 1)%nat /\
    (List.length lines <= 2)%nat /\
    Forall (fun line => isCostLine line = true -> lineOrg line = Some orgId) lines /\
    (forall envelope, fst (invoke this orgId op w) = Ok envelope ->
                      List.length sent = 1%nat /\
                      List.length (filter isCostLine lines) = 1%nat) /\
    (forall e, fst (invoke this orgId op w) = Throw e ->
               (List.length (filter isCostLine lines) <= 1)%nat).
Proof.
  destruct op as [ request userId | request ]; run_router.
  - destruct (routeRequest this chatConstraints) as [ selectedModel | e0 ].
    + cbv zeta.
      destruct (Reply.outcome (OpenAI.chat_completions_create _ _)) as [ completion | e1 ].
      * destruct (ChatCompletion.usage completion) as [ usage | ].
        -- destruct (ChatCompletion.choices completion) as [ | choice choices ]; cbn.
           ++ eexists. eexists. split; [ reflexivity | ].
              split; [ rewrite <- app_assoc; reflexivity | ].
              cbn. repeat split; try lia; try discriminate.
              repeat constructor; discriminate.
           ++ eexists. eexists. split; [ reflexivity | ]. split; [ reflexivity | ].
              cbn. repeat split; try lia; try discriminate.
              repeat constructor.
        -- cbn. eexists. eexists. split; [ reflexivity | ]. split; [ reflexivity | ].
           cbn. repeat split; try lia; try discriminate.
           repeat constructor; discriminate.
      * cbn. eexists. eexists. split; [ reflexivity | ]. split; [ reflexivity | ].
        cbn. repeat split; try lia; try discriminate.
        repeat constructor; discriminate.
    + cbn. exists [], []. rewrite !app_nil_r.
      repeat split; cbn; try lia; try discriminate. constructor.
  - destruct (Map_get (LLMRouter.models this) "text-embedding-3-small")
      as [ embeddingModel | ].
    + cbv zeta.
      destruct (Reply.outcome (OpenAI.embeddings_create _ _)) as [ reply | e1 ]; cbn.
      * eexists. eexists. split; [ reflexivity | ]. split; [ reflexivity | ].
        cbn. repeat split; try lia; try discriminate.
        repeat constructor.
      * eexists. eexists. split; [ reflexivity | ]. split; [ reflexivity | ].
        cbn. repeat split; try lia; try discriminate.
        repeat constructor; discriminate.
    + cbn. exists [], []. rewrite !app_nil_r.
      repeat split; cbn; try lia; try discriminate. constructor.
Qed.

Lemma serve_cons (this : LLMRouter.t) (orgId : string) (op : Operation)
    (ops : list Operation) (w : World.t) :
  serve this orgId (op :: ops) w
  = (fst (invoke this orgId op w)
       :: fst (serve this orgId ops (snd (invoke this orgId op w))),
     snd (serve this orgId ops (snd (invoke this orgId op w)))).
Proof.
  cbn [serve]. destruct (invoke this orgId op w) as [ result w1 ].
  cbn [fst snd]. destruct (serve this orgId ops w1) as [ results w2 ]. reflexivity.
Qed.

(** X11. A run of n operations sends at most n requests to the provider and
    at least one for every call that succeeded: there is no retry, and no
    answer is produced without asking the provider. *)
Theorem serve_requests_bounded
    (this : LLMRouter.t) (orgId : string) (ops : list Operation) (w : World.t) :
  exists sent,
    World.network (snd (serve this orgId ops w)) = World.network w ++ sent /\
    (List.length (succeeded (fst (serve this orgId ops w))) <= List.length sent)%nat /\
    (List.length sent <= List.length ops)%nat /\
    List.length (fst (serve this orgId ops w)) = List.length ops.
Proof.
  revert w. induction ops as [ | op ops IH ]; intros w.
  - exists []. cbn. rewrite app_nil_r. auto.
  - rewrite serve_cons. cbn [fst snd].
    destruct (invoke_effects this orgId op w)
      as (sent1 & lines1 & Hnet1 & _ & Hlen1 & _ & _ & Hok & _).
    destruct (IH (snd (invoke this orgId op w)))
      as (sent2 & Hnet2 & Hsucc & Hlen2 & Hres).
    exists (sent1 ++ sent2). rewrite Hnet2, Hnet1, app_assoc, length_app.
    split; [ reflexivity | ]. cbn [List.length]. rewrite Hres.
    split; [ | split; [ lia | reflexivity ] ].
    destruct (fst (invoke this orgId op w)) as [ envelope | e ] eqn:E;
      cbn [succeeded List.length].
    + destruct (Hok envelope eq_refl) as [ Hone _ ]. lia.
    + lia.
Qed.

(** X12. In a run for one organization every cost line written names that
    organization, and every call that succeeded left a cost line of its
    own. *)
Theorem serve_cost_lines_name_the_caller
    (this : LLMRouter.t) (orgId : string) (ops : list Operation) (w : World.t) :
  exists lines,
    World.console (snd (serve this orgId ops w)) = World.console w ++ lines /\
    Forall (fun line => isCostLine line = true -> lineOrg line = Some orgId) lines /\
    (List.length (succeeded (fst (serve this orgId ops w)))
     <= List.length (filter isCostLine lines))%nat /\
    (List.length (filter isCostLine lines) <= List.length ops)%nat.
Proof.
  revert w. induction ops as [ | op ops IH ]; intros w.
  - exists []. cbn. rewrite app_nil_r. repeat split; auto.
  - rewrite serve_cons. cbn [fst snd].
    destruct (invoke_effects this orgId op w)
      as (sent1 & lines1 & _ & Hcon1 & _ & _ & Horg1 & Hok & Hthrow).
    destruct (IH (snd (invoke this orgId op w)))
      as (lines2 & Hcon2 & Horg2 & Hsucc & Hlen2).
    exists (lines1 ++ lines2).
    rewrite Hcon2, Hcon1, app_assoc, filter_app, length_app.
    split; [ reflexivity | ].
    split; [ apply Forall_app; split; assumption | ].
    destruct (fst (invoke this orgId op w)) as [ envelope | e ] eqn:E;
      cbn [succeeded List.length].
    + destruct (Hok envelope eq_refl) as [ _ Hone ]. lia.
    + specialize (Hthrow e eq_refl). lia.
Qed.

(** ** Cost arithmetic *)

(** The cost is not additive in the token counts: the roundings of the two
    parts do not add up to the rounding of the whole. *)
Example calculateCost_not_additive :
  ~ calculateCost (1 + 2) (1 + 2) gpt4o
    == calculateCost 1 1 gpt4o + calculateCost 2 2 gpt4o.
Proof.
  intros H. vm_compute in H. discriminate H.
Qed.

(** X14. With rates that are not negative, the cost of non-negative token
    counts is not negative and does not decrease when a count grows. *)
Theorem calculateCost_monotone
    (input input' output output' : number) (model : ModelConfig.t) :
  0 <= ModelConfig.costPer1kInput model ->
  0 <= ModelConfig.costPer1kOutput model ->
  0 <= input -> input <= input' ->
  0 <= output -> output <= output' ->
  0 <= calculateCost input output model /\
  calculateCost input output model <= calculateCost input' output' model.
Proof.
  intros Hin Hout Hi Hii Ho Hoo.
  unfold calculateCost, js_add, js_mul, js_div. cbv zeta.
  assert (H1 : 0 <= binary64 (input / 1000)).
  { apply binary64_nonneg. apply Qle_shift_div_l; [ reflexivity | lra ]. }
  assert (H2 : binary64 (input / 1000) <= binary64 (input' / 1000)).
  { apply binary64_mono. unfold Qdiv.
    apply Qmult_le_compat_r; [ assumption | discriminate ]. }
  assert (H3 : 0 <= binary64 (output / 1000)).
  { apply binary64_nonneg. apply Qle_shift_div_l; [ reflexivity | lra ]. }
  assert (H4 : binary64 (output / 1000) <= binary64 (output' / 1000)).
  { apply binary64_mono. unfold Qdiv.
    apply Qmult_le_compat_r; [ assumption | discriminate ]. }
  assert (H5 : 0 <= binary64 (binary64 (input / 1000) * ModelConfig.costPer1kInput model)).
  { apply binary64_nonneg. now apply Qmult_le_0_compat. }
  assert (H6 : 0 <= binary64 (binary64 (output / 1000) * ModelConfig.costPer1kOutput model)).
  { apply binary64_nonneg. now apply Qmult_le_0_compat. }
  assert (H7 : binary64 (binary64 (input / 1000) * ModelConfig.costPer1kInput model)
               <= binary64 (binary64 (input' / 1000) * ModelConfig.costPer1kInput model)).
  { apply binary64_mono. now apply Qmult_le_compat_r. }
  assert (H8 : binary64 (binary64 (output / 1000) * ModelConfig.costPer1kOutput model)
               <= binary64 (binary64 (output' / 1000) * ModelConfig.costPer1kOutput model)).
  { apply binary64_mono. now apply Qmult_le_compat_r. }
  split.
  - apply binary64_nonneg. lra.
  - apply binary64_mono. lra.
Qed.

Lemma calculateCost_monotone_witness :
  0 <= calculateCost 100 50 gpt4oMini /\
  calculateCost 100 50 gpt4oMini <= calculateCost 200 50 gpt4oMini.
Proof.
  apply (calculateCost_monotone 100 200 50 50 gpt4oMini);
    vm_compute; discriminate.
Defined.

(** * The callers of the router *)

Ltac run_server :=
  unfold postLlmChat, postVectorSearch, storeEmbedding, similaritySearch,
    updateEmbedding, first_embedding, liftRouter, db_execute, server_console,
    s_bind, s_ret, s_throw, s_try_catch;
  cbn [fst snd Server.now Server.console Server.network Server.queries].

(** The router methods never read the console: started on any console, they
    write the lines they would write on an empty one, after it.  This is what
    [liftRouter] relies on. *)
Lemma chatCompletion_console_frame (this : LLMRouter.t) (request : ChatRequest.t)
    (orgId : string) (userId : option string) (now : Z)
    (console : list ConsoleLine) (network : list Outbound) :
  chatCompletion this request orgId userId (World.mk now console network)
  = (fst (chatCompletion this request orgId userId (World.mk now [] network)),
     World.mk
       (World.now (snd (chatCompletion this request orgId userId
                          (World.mk now [] network))))
       (console ++ World.console (snd (chatCompletion this request orgId userId
                                         (World.mk now [] network))))
       (World.network (snd (chatCompletion this request orgId userId
                              (World.mk now [] network))))).
Proof.
  run_router.
  destruct (routeRequest this chatConstraints) as [ selectedModel | e0 ];
    [ | cbn; rewrite app_nil_r; reflexivity ].
  cbv zeta.
  destruct (Reply.outcome (OpenAI.chat_completions_create _ _)) as [ completion | e1 ];
    [ | reflexivity ].
  destruct (ChatCompletion.usage completion) as [ usage | ]; [ | reflexivity ].
  destruct (ChatCompletion.choices completion) as [ | choice choices ]; cbn;
    [ rewrite <- app_assoc | ]; reflexivity.
Qed.

Lemma generateEmbeddings_console_frame (this : LLMRouter.t)
    (request : EmbeddingRequest.t) (orgId : string) (now : Z)
    (console : list ConsoleLine) (network : list Outbound) :
  generateEmbeddings this request orgId (World.mk now console network)
  = (fst (generateEmbeddings this request orgId (World.mk now [] network)),
     World.mk
       (World.now (snd (generateEmbeddings this request orgId (World.mk now [] network))))
       (console ++ World.console (snd (generateEmbeddings this request orgId
                                         (World.mk now [] network))))
       (World.network (snd (generateEmbeddings this request orgId
                              (World.mk now [] network))))).
Proof.
  run_router.
  destruct (Map_get (LLMRouter.models this) "text-embedding-3-small")
    as [ embeddingModel | ]; [ | cbn; rewrite app_nil_r; reflexivity ].
  cbv zeta.
  destruct (Reply.outcome (OpenAI.embeddings_create _ _)) as [ reply | e1 ];
    reflexivity.
Qed.

(** ** [POST /api/llm/chat] *)

(** X15. The chat route answers 400 "Messages array is required" exactly
    when the body's [messages] is missing or not an array, and then it
    touches nothing: no routing, no provider request, no console line. *)
Theorem postLlmChat_validation
    (llmRouter : LLMRouter.t) (body : ChatBody.t) (orgId : option string)
    (s : Server.t) :
  (forall messages, ChatBody.messages body <> messages_array messages) ->
  postLlmChat llmRouter body orgId s
  = (Ok (HttpResponse.mk 400
           (json_error_code "Messages array is required" "ValidationError")),
     s).
Proof.
  intros Hnot. run_server.
  destruct (ChatBody.messages body) as [ | | messages ]; try reflexivity.
  exfalso. exact (Hnot messages eq_refl).
Qed.

Lemma postLlmChat_validation_witness :
  (forall messages,
      ChatBody.messages (ChatBody.mk messages_not_array None None None None)
      <> messages_array messages) /\
  postLlmChat (new_LLMRouter answeringClient)
    (ChatBody.mk messages_not_array None None None None) (Some "acme") emptyServer
  = (Ok (HttpResponse.mk 400
           (json_error_code "Messages array is required" "ValidationError")),
     emptyServer).
Proof.
  assert (Hnot : forall messages,
             ChatBody.messages (ChatBody.mk messages_not_array None None None None)
             <> messages_array messages).
  { intros messages H. discriminate H. }
  split; [ exact Hnot | ].
  exact (postLlmChat_validation (new_LLMRouter answeringClient)
           (ChatBody.mk messages_not_array None None None None) (Some "acme")
           emptyServer Hnot).
Defined.

(** X16. On a router built by the constructor the chat route never answers
    200: every body with a messages array gets 500 "Chat completion failed"
    with the details "No models available for the given constraints", the
    provider is not contacted, and the console gains the route's error line
    only. *)
Theorem postLlmChat_on_shipped_router
    (client : OpenAI.t) (body : ChatBody.t) (orgId : option string)
    (s : Server.t) (messages : list ChatMessage.t) :
  ChatBody.messages body = messages_array messages ->
  postLlmChat (new_LLMRouter client) body orgId s
  = (Ok (HttpResponse.mk 500
           (json_error_details "Chat completion failed"
              "No models available for the given constraints")),
     Server.mk (Server.now s)
               (Server.console s ++ [error_llm_chat noModelsAvailable])
               (Server.network s) (Server.queries s)).
Proof.
  intros Hbody. run_server. rewrite Hbody. run_router.
  rewrite routeRequest_shipped_chat. cbn. rewrite app_nil_r. reflexivity.
Qed.

Lemma postLlmChat_on_shipped_router_witness :
  ChatBody.messages (ChatBody.mk (messages_array [ChatMessage.mk user "hello" None])
                       None None None None)
  = messages_array [ChatMessage.mk user "hello" None] /\
  postLlmChat (new_LLMRouter answeringClient)
    (ChatBody.mk (messages_array [ChatMessage.mk user "hello" None]) None None None None)
    (Some "acme") emptyServer
  = (Ok (HttpResponse.mk 500
           (json_error_details "Chat completion failed"
              "No models available for the given constraints")),
     Server.mk (Server.now emptyServer)
               (Server.console emptyServer ++ [error_llm_chat noModelsAvailable])
               (Server.network emptyServer) (Server.queries emptyServer)).
Proof.
  split; [ reflexivity | ].
  exact (postLlmChat_on_shipped_router answeringClient
           (ChatBody.mk (messages_array [ChatMessage.mk user "hello" None])
              None None None None)
           (Some "acme") emptyServer [ChatMessage.mk user "hello" None] eq_refl).
Defined.



(** ** [VectorStore] *)



(** X19. When the embeddings call succeeds with at least one vector and the
    database accepts the statement, [storeEmbedding] executes one INSERT that
    carries the first vector returned by the router (not the [embedding]
    field of the document passed in), and returns the id of the first row
    that comes back, or nothing when no row comes back. *)
Theorem storeEmbedding_stores_first_vector
    (this : VectorStore.t) (document : NewDocument.t) (s : Server.t)
    (response : EmbeddingResponse.t) (w : World.t)
    (item : EmbeddingItem.t) (items : list EmbeddingItem.t) (rows : list Row.t) :
  generateEmbeddings (VectorStore.llmRouter this)
    (EmbeddingRequest.mk (one_text (NewDocument.content document)) None)
    (NewDocument.orgId document)
    (World.mk (Server.now s) [] (Server.network s))
  = (Ok response, w) ->
  EmbeddingResponse.data response = item :: items ->
  Reply.outcome
    (VectorStore.db this
       (sql_insert_embedding (NewDocument.orgId document) (NewDocument.content document)
          (EmbeddingItem.embedding item) (NewDocument.metadata document)
          (DocumentType_text (NewDocument.type document))))
  = Ok rows ->
  exists s',
    storeEmbedding this document s
    = (Ok (match rows with row :: _ => Some (Row.id row) | [] => None end), s') /\
    Server.queries s'
    = Server.queries s
      ++ [sql_insert_embedding (NewDocument.orgId document)
            (NewDocument.content document) (EmbeddingItem.embedding item)
            (NewDocument.metadata document)
            (DocumentType_text (NewDocument.type document))] /\
    Server.network s' = World.network w.
Proof.
  intros Hgen Hdata Hdb. run_server. rewrite Hgen, Hdata. cbn. rewrite Hdb.
  eexists. split; [ reflexivity | ]. cbn. split; reflexivity.
Qed.

Lemma storeEmbedding_stores_first_vector_witness :
  exists s',
    storeEmbedding (VectorStore.mk (new_LLMRouter answeringClient) oneRowDatabase)
      sampleDocument emptyServer
    = (Ok (Some "doc-1"), s') /\
    Server.queries s'
    = Server.queries emptyServer
      ++ [sql_insert_embedding "acme" "hello" [0.25; 5] [("lang", "en")] "persona"] /\
    Server.network s'
    = [sent_embeddings (EmbeddingParams.mk "text-embedding-3-small" (one_text "hello"))].
Proof.
  apply (storeEmbedding_stores_first_vector
           (VectorStore.mk (new_LLMRouter answeringClient) oneRowDatabase)
           sampleDocument emptyServer
           (EmbeddingResponse.mk [EmbeddingItem.mk [0.25; 5] 0 "embedding"]
              "text-embedding-3-small" (EmbeddingUsage.mk 1000 1000))
           (World.mk 30 [log_embedding_cost_tracked "acme" 20]
              [sent_embeddings
                 (EmbeddingParams.mk "text-embedding-3-small" (one_text "hello"))])
           (EmbeddingItem.mk [0.25; 5] 0 "embedding") []
           [Row.mk "doc-1" "acme" "stored text" (binary64 0.9) [("lang", "en")] "persona"]);
    vm_compute; reflexivity.
Defined.

(** X20. When the embeddings call succeeds but returns no vector,
    [storeEmbedding] fails with a [TypeError] and executes no SQL statement,
    although the router has already tracked the cost of the call. *)
Theorem storeEmbedding_without_vector
    (this : VectorStore.t) (document : NewDocument.t) (s : Server.t)
    (response : EmbeddingResponse.t) (w : World.t) :
  generateEmbeddings (VectorStore.llmRouter this)
    (EmbeddingRequest.mk (one_text (NewDocument.content document)) None)
    (NewDocument.orgId document)
    (World.mk (Server.now s) [] (Server.network s))
  = (Ok response, w) ->
  EmbeddingResponse.data response = [] ->
  exists s',
    storeEmbedding this document s = (Throw (readOfUndefined "embedding"), s') /\
    Server.queries s' = Server.queries s /\
    Server.console s'
    = Server.console s ++ map router_line (World.console w)
      ++ [error_store_embedding_failed (readOfUndefined "embedding")] /\
    exists millionths,
      World.console w
      = [log_embedding_cost_tracked (NewDocument.orgId document) millionths].
Proof.
  intros Hgen Hdata. run_server. rewrite Hgen, Hdata. cbn.
  eexists. split; [ reflexivity | ]. cbn. split; [ reflexivity | ].
  split; [ now rewrite app_assoc | ].
  destruct (generateEmbeddings_Ok _ _ _ _ _ _ Hgen)
    as (embeddingModel & reply & _ & _ & _ & _ & Hconsole).
  cbn in Hconsole. eexists. exact Hconsole.
Qed.

Lemma storeEmbedding_without_vector_witness :
  exists s',
    storeEmbedding (VectorStore.mk (new_LLMRouter vectorlessClient) oneRowDatabase)
      sampleDocument emptyServer
    = (Throw (readOfUndefined "embedding"), s') /\
    Server.queries s' = Server.queries emptyServer /\
    Server.console s'
    = Server.console emptyServer
      ++ map router_line [log_embedding_cost_tracked "acme" 20]
      ++ [error_store_embedding_failed (readOfUndefined "embedding")] /\
    exists millionths,
      [log_embedding_cost_tracked "acme" 20]
      = [log_embedding_cost_tracked (NewDocument.orgId sampleDocument) millionths].
Proof.
  apply (storeEmbedding_without_vector
           (VectorStore.mk (new_LLMRouter vectorlessClient) oneRowDatabase)
           sampleDocument emptyServer
           (EmbeddingResponse.mk [] "text-embedding-3-small" (EmbeddingUsage.mk 1000 1000))
           (World.mk 30 [log_embedding_cost_tracked "acme" 20]
              [sent_embeddings
                 (EmbeddingParams.mk "text-embedding-3-small" (one_text "hello"))]));
    vm_compute; reflexivity.
Defined.

(** X21. A similarity search that succeeds makes one embeddings call for the
    query text under the caller's organization, runs one search statement
    with the first vector returned, and hands back one result per row, in the
    database's order; an omitted threshold is 0.7 and an omitted limit 10. *)
Theorem similaritySearch_maps_rows
    (this : VectorStore.t) (query orgId type : string)
    (threshold limit : option number) (s : Server.t)
    (response : EmbeddingResponse.t) (w : World.t)
    (item : EmbeddingItem.t) (items : list EmbeddingItem.t) (rows : list Row.t) :
  generateEmbeddings (VectorStore.llmRouter this)
    (EmbeddingRequest.mk (one_text query) None) orgId
    (World.mk (Server.now s) [] (Server.network s))
  = (Ok response, w) ->
  EmbeddingResponse.data response = item :: items ->
  Reply.outcome
    (VectorStore.db this
       (sql_similarity_search (EmbeddingItem.embedding item)
          (match threshold with Some t => t | None => (binary64 0.7) end)
          (match limit with Some l => l | None => 10 end) orgId type))
  = Ok rows ->
  exists results s',
    similaritySearch this query orgId type threshold limit s = (Ok results, s') /\
    map SimilaritySearchResult.id results = map Row.id rows /\
    map SimilaritySearchResult.similarity results = map Row.similarity rows /\
    List.length results = List.length rows /\
    Server.queries s'
    = Server.queries s
      ++ [sql_similarity_search (EmbeddingItem.embedding item)
            (match threshold with Some t => t | None => (binary64 0.7) end)
            (match limit with Some l => l | None => 10 end) orgId type].
Proof.
  intros Hgen Hdata Hdb. run_server. cbv zeta. rewrite Hgen, Hdata. cbn.
  rewrite Hdb. eexists. eexists. split; [ reflexivity | ].
  rewrite !map_map, length_map. cbn. repeat split; reflexivity.
Qed.

Lemma similaritySearch_maps_rows_witness :
  exists results s',
    similaritySearch (VectorStore.mk (new_LLMRouter answeringClient) oneRowDatabase)
      "hello" "acme" "persona" None (Some 3) emptyServer
    = (Ok results, s') /\
    map SimilaritySearchResult.id results = ["doc-1"] /\
    Server.queries s'
    = [sql_similarity_search [0.25; 5] (binary64 0.7) 3 "acme" "persona"].
Proof.
  destruct (similaritySearch_maps_rows
              (VectorStore.mk (new_LLMRouter answeringClient) oneRowDatabase)
              "hello" "acme" "persona" None (Some 3) emptyServer
              (EmbeddingResponse.mk [EmbeddingItem.mk [0.25; 5] 0 "embedding"]
                 "text-embedding-3-small" (EmbeddingUsage.mk 1000 1000))
              (World.mk 30 [log_embedding_cost_tracked "acme" 20]
                 [sent_embeddings
                    (EmbeddingParams.mk "text-embedding-3-small" (one_text "hello"))])
              (EmbeddingItem.mk [0.25; 5] 0 "embedding") []
              [Row.mk "doc-1" "acme" "stored text" (binary64 0.9) [("lang", "en")] "persona"])
    as (results & s' & Hrun & Hids & _ & _ & Hqueries);
    try (vm_compute; reflexivity).
  exists results, s'. split; [ exact Hrun | ]. split; [ exact Hids | exact Hqueries ].
Defined.

(** X22. [updateEmbedding] of an id that the database does not know fails
    with "Document not found" after the one SELECT: no embeddings request is
    made, so no cost is incurred, and nothing is updated. *)
Theorem updateEmbedding_unknown_document
    (this : VectorStore.t) (id content : string) (metadata : option Json)
    (s : Server.t) :
  Reply.outcome (VectorStore.db this (sql_select_document id)) = Ok [] ->
  exists s',
    updateEmbedding this id content metadata s = (Throw documentNotFound, s') /\
    Server.queries s' = Server.queries s ++ [sql_select_document id] /\
    Server.network s' = Server.network s /\
    Server.console s'
    = Server.console s ++ [error_update_embedding_failed documentNotFound].
Proof.
  intros Hdb. run_server. rewrite Hdb. cbn.
  eexists. split; [ reflexivity | ]. cbn. repeat split; reflexivity.
Qed.

Lemma updateEmbedding_unknown_document_witness :
  exists s',
    updateEmbedding (VectorStore.mk (new_LLMRouter answeringClient) emptyDatabase)
      "doc-9" "new text" None emptyServer
    = (Throw documentNotFound, s') /\
    Server.queries s' = Server.queries emptyServer ++ [sql_select_document "doc-9"] /\
    Server.network s' = Server.network emptyServer /\
    Server.console s'
    = Server.console emptyServer ++ [error_update_embedding_failed documentNotFound].
Proof.
  apply (updateEmbedding_unknown_document
           (VectorStore.mk (new_LLMRouter answeringClient) emptyDatabase)
           "doc-9" "new text" None emptyServer).
  reflexivity.
Defined.

(** X23. [updateEmbedding] of a known document regenerates the vector under
    the organization that owns the document, as the database reports it:
    the one embeddings request is for the new content, and every cost line
    that the call writes names that organization. *)
Theorem updateEmbedding_bills_the_owner
    (this : VectorStore.t) (id content : string) (metadata : option Json)
    (s : Server.t) (doc : Row.t) (docs : list Row.t)
    (embeddingModel : ModelConfig.t) :
  Reply.outcome (VectorStore.db this (sql_select_document id)) = Ok (doc :: docs) ->
  Map_get (LLMRouter.models (VectorStore.llmRouter this)) "text-embedding-3-small"
  = Some embeddingModel ->
  exists lines,
    Server.network (snd (updateEmbedding this id content metadata s))
    = Server.network s
      ++ [sent_embeddings
            (EmbeddingParams.mk (ModelConfig.model embeddingModel) (one_text content))] /\
    Server.console (snd (updateEmbedding this id content metadata s))
    = Server.console s ++ lines /\
    Forall (fun line =>
              match line with
              | router_line l => isCostLine l = true -> lineOrg l = Some (Row.org_id doc)
              | _ => True
              end) lines.
Proof.
  intros Hdb Hget. run_server. rewrite Hdb. cbn. run_router. rewrite Hget. cbv zeta.
  destruct (Reply.outcome (OpenAI.embeddings_create _ _)) as [ reply | e1 ]; cbn.
  - destruct (CreateEmbeddingResponse.data reply) as [ | item items ]; cbn.
    + eexists. split; [ reflexivity | ].
      split; [ rewrite <- app_assoc; reflexivity | ].
      repeat constructor.
    + destruct (Reply.outcome (VectorStore.db this (sql_update_embedding _ _ _ _)))
        as [ rows | e2 ]; cbn.
      * eexists. split; [ reflexivity | ].
        split; [ rewrite <- app_assoc; reflexivity | ].
        repeat constructor.
      * eexists. split; [ reflexivity | ].
        split; [ rewrite <- app_assoc; reflexivity | ].
        repeat constructor.
  - eexists. split; [ reflexivity | ].
    split; [ rewrite <- app_assoc; reflexivity | ].
    repeat constructor; discriminate.
Qed.

Lemma updateEmbedding_bills_the_owner_witness :
  exists lines,
    Server.network
      (snd (updateEmbedding (VectorStore.mk (new_LLMRouter answeringClient) oneRowDatabase)
              "doc-1" "new text" None emptyServer))
    = Server.network emptyServer
      ++ [sent_embeddings
            (EmbeddingParams.mk (ModelConfig.model embeddingSmall) (one_text "new text"))] /\
    Server.console
      (snd (updateEmbedding (VectorStore.mk (new_LLMRouter answeringClient) oneRowDatabase)
              "doc-1" "new text" None emptyServer))
    = Server.console emptyServer ++ lines /\
    Forall (fun line =>
              match line with
              | router_line l => isCostLine l = true -> lineOrg l = Some "acme"
              | _ => True
              end) lines.
Proof.
  apply (updateEmbedding_bills_the_owner
           (VectorStore.mk (new_LLMRouter answeringClient) oneRowDatabase)
           "doc-1" "new text" None emptyServer
           (Row.mk "doc-1" "acme" "stored text" (binary64 0.9) [("lang", "en")] "persona") []
           embeddingSmall);
    reflexivity.
Defined.

(** ** [POST /api/vector/search] *)

(** X24. The search route answers 400 "Query and type are required" when the
    body's [query] or [type] is missing or empty, and then it touches
    nothing: no embeddings request, no SQL statement, no console line. *)
Theorem postVectorSearch_validation
    (vectorStore : VectorStore.t) (body : SearchBody.t) (orgId : string)
    (s : Server.t) :
  truthy_string (SearchBody.query body) = false
  \/ truthy_string (SearchBody.type body) = false ->
  postVectorSearch vectorStore body orgId s
  = (Ok (HttpResponse.mk 400
           (json_error_code "Query and type are required" "ValidationError")),
     s).
Proof.
  intros H. run_server.
  destruct H as [ -> | -> ]; cbn; [ | rewrite orb_true_r ]; reflexivity.
Qed.

Lemma postVectorSearch_validation_witness :
  postVectorSearch (VectorStore.mk (new_LLMRouter answeringClient) oneRowDatabase)
    (SearchBody.mk (Some "hello") (Some "") None None) "acme" emptyServer
  = (Ok (HttpResponse.mk 400
           (json_error_code "Query and type are required" "ValidationError")),
     emptyServer).
Proof.
  apply (postVectorSearch_validation
           (VectorStore.mk (new_LLMRouter answeringClient) oneRowDatabase)
           (SearchBody.mk (Some "hello") (Some "") None None) "acme" emptyServer).
  right. reflexivity.
Defined.

(** X25. With a query and a type, the search route runs [similaritySearch]
    with a threshold of 0.7 and a limit of 10 wherever the body omits them or
    gives 0 (a threshold of 0 cannot be asked for), answers 200 with the
    results and the values it used, and answers 500 with the error's message
    when the search throws. *)
Theorem postVectorSearch_defaults
    (vectorStore : VectorStore.t) (body : SearchBody.t) (orgId : string)
    (s : Server.t) (query type : string) :
  SearchBody.query body = Some query -> query <> "" ->
  SearchBody.type body = Some type -> type <> "" ->
  fst (postVectorSearch vectorStore body orgId s)
  = match fst (similaritySearch vectorStore query orgId type
                 (Some (or_default (SearchBody.threshold body) (binary64 0.7)))
                 (Some (or_default (SearchBody.limit body) 10)) s) with
    | Ok results =>
        Ok (HttpResponse.mk 200
              (json_search results query type
                 (or_default (SearchBody.threshold body) (binary64 0.7))
                 (or_default (SearchBody.limit body) 10)))
    | Throw e =>
        Ok (HttpResponse.mk 500
              (json_error_details "Vector search failed" (exn_message e)))
    end /\
  (omittedOrZero (SearchBody.threshold body) ->
   or_default (SearchBody.threshold body) (binary64 0.7) = (binary64 0.7)) /\
  (omittedOrZero (SearchBody.limit body) ->
   or_default (SearchBody.limit body) 10 = 10).
Proof.
  intros Hq Hqne Ht Htne.
  split; [ | split; intros; now apply or_default_omitted ].
  unfold postVectorSearch, s_try_catch, s_bind, s_ret, server_console.
  rewrite Hq, Ht. cbn [truthy_string or_default_string].
  apply String.eqb_neq in Hqne, Htne. rewrite Hqne, Htne. cbn [negb orb].
  destruct (similaritySearch _ _ _ _ _ _ _) as [ [ results | e ] s' ]; reflexivity.
Qed.

Lemma postVectorSearch_defaults_witness :
  fst (postVectorSearch (VectorStore.mk (new_LLMRouter answeringClient) oneRowDatabase)
         (SearchBody.mk (Some "hello") (Some "persona") (Some 0) None) "acme"
         emptyServer)
  = Ok (HttpResponse.mk 200
          (json_search
             [SimilaritySearchResult.mk "doc-1" "stored text" (binary64 0.9) [("lang", "en")]
                "persona"]
             "hello" "persona" (binary64 0.7) 10)).
Proof.
  assert (Hq : "hello" <> "") by discriminate.
  assert (Ht : "persona" <> "") by discriminate.
  rewrite (proj1 (postVectorSearch_defaults
                    (VectorStore.mk (new_LLMRouter answeringClient) oneRowDatabase)
                    (SearchBody.mk (Some "hello") (Some "persona") (Some 0) None) "acme"
                    emptyServer "hello" "persona" eq_refl Hq eq_refl Ht)).
  vm_compute. reflexivity.
Defined.
